(** * The control-adapter auto-preprocess listener and the appInfo endpoints

    A shallow embedding of

    - [listeners/controlAdapterPreprocessor.ts]: the listener effect
      [addControlAdapterPreprocessor] and its helper [cancelProcessorBatch];
    - [services/api/endpoints/appInfo.ts]: the endpoint table [appInfoApi].

    The effect is an [async] function.  It is embedded as a finite tree of
    operations ([Task]): synchronous calls on the listener API, suspension
    points ([await]) and detached calls of async functions.  An event loop
    ([loop]) runs the tasks of all listener instances over a shared store
    and records what they do in a trace.  Every action, those the effect
    dispatches included, goes through the listener middleware, which starts
    an instance of the effect for a trigger. *)

From Stdlib Require Import String List ZArith Bool Lia.
Import ListNotations.
Local Open Scope string_scope.
Local Open Scope Z_scope.

Set Implicit Arguments.

(** ** Data *)

(** An image descriptor ([ImageDTO]); only the fields the listener reads. *)
Record ImageDTO : Type := mkImageDTO {
  image_name : string;
  width : Z;
  height : Z
}.

(** A processor configuration, tagged by its processor kind. *)
Record ProcessorConfig : Type := mkProcessorConfig {
  cfg_id : string;
  cfg_type : string
}.

(** Modelled from the spec: the control-adapter data of a layer
    ([controlLayersSlice] is not among the sources): "an optional source
    image reference, an optional processor configuration, an optional
    processed-output image reference, and an optional pending-batch
    identifier". *)
Record ControlAdapter : Type := mkControlAdapter {
  image : option ImageDTO;
  processorConfig : option ProcessorConfig;
  processedImage : option ImageDTO;
  processorPendingBatchId : option string
}.

(** A control-adapter layer: [{ type: 'control_adapter_layer', id,
    controlAdapter }]. *)
Record CALayer : Type := mkCALayer {
  id : string;
  controlAdapter : ControlAdapter
}.

(** A layer of [state.controlLayers.present.layers]. *)
Inductive Layer : Type :=
| ControlAdapterLayer (l : CALayer)
| OtherLayer (layerId : string).

(** The type guard [isControlAdapterLayer]: a layer that passes it is
    narrowed to a control-adapter layer. *)
Definition isControlAdapterLayer (l : Layer) : option CALayer :=
  match l with
  | ControlAdapterLayer ca => Some ca
  | OtherLayer _ => None
  end.

(** [layers.filter(guard)] with a type guard. *)
Fixpoint filter_guard {A B} (guard : A -> option B) (l : list A) : list B :=
  match l with
  | [] => []
  | x :: rest =>
      match guard x with
      | Some y => y :: filter_guard guard rest
      | None => filter_guard guard rest
      end
  end.

(** [state.controlLayers.present.layers]: the part of the root state the
    listener reads. *)
Definition RootState : Type := list Layer.

(** A node of the processor graph, as returned by [buildNode]. *)
Record Node : Type := mkNode {
  node_id : string;
  node_type : string;
  node_image : option string;
  is_intermediate : bool
}.

Record Graph : Type := mkGraph {
  nodes : list (string * Node);
  edges : list (string * string)
}.

Record Batch : Type := mkBatch {
  graph : Graph;
  runs : Z
}.

Record BatchConfig : Type := mkBatchConfig {
  prepend : bool;
  batch : Batch
}.

(** The response of [enqueueBatch]: [batch.batch_id] is optional. *)
Record EnqueueBatchResult : Type := mkEnqueueBatchResult {
  batch_id : option string
}.

(** The result carried by an invocation-complete event. *)
Inductive InvocationResult : Type :=
| ImageOutput (image : string) (w h : Z)
| OtherOutput (type : string).

Definition isImageOutput (r : InvocationResult) : bool :=
  match r with
  | ImageOutput _ _ _ => true
  | OtherOutput _ => false
  end.

Record InvocationCompleteData : Type := mkInvocationCompleteData {
  queue_batch_id : string;
  source_node_id : string;
  result : InvocationResult
}.

(** [t(key)] of i18next: a translated text is kept as its key. *)
Inductive Text : Type := i18n_t (key : string).

(** The actions the listener matches, dispatches or takes. *)
Inductive Action : Type :=
| caLayerImageChanged (layerId : string) (imageDTO : option ImageDTO)
| caLayerProcessorConfigChanged (layerId : string)
                                (config : option ProcessorConfig)
| caLayerModelChanged (layerId : string) (modelKey : option string)
| caLayerRecalled (layer : CALayer)
| caLayerProcessedImageChanged (layerId : string) (imageDTO : option ImageDTO)
| caLayerProcessorPendingBatchIdChanged (layerId : string)
                                        (batchId : option string)
| addToast (title : Text) (status : string)
| socketInvocationComplete (data : InvocationCompleteData)
| otherAction (type : string).

(** [isAnyOf(caLayerImageChanged, caLayerProcessorConfigChanged,
    caLayerModelChanged, caLayerRecalled)]. *)
Definition matcher (a : Action) : bool :=
  match a with
  | caLayerImageChanged _ _ => true
  | caLayerProcessorConfigChanged _ _ => true
  | caLayerModelChanged _ _ => true
  | caLayerRecalled _ => true
  | _ => false
  end.

Definition DEBOUNCE_MS : Z := 300.

(** ** Thrown values *)

Inductive JsValue : Type :=
| VNum (n : Z)
| VStr (s : string)
| VOther.

(** What a [catch] clause can receive. *)
Inductive JsError : Type :=
| TaskAbortError
| AssertionError (message : string)
| TypeError
| ThrownObject (fields : list (string * JsValue))
| ThrownPrimitive (v : JsValue).

(** The rejection value of a failed request: [{ status, data }]. *)
Definition FetchBaseQueryError (status : Z) : JsError :=
  ThrownObject [("status", VNum status); ("data", VOther)].

Fixpoint lookup_field (key : string) (fields : list (string * JsValue))
  : option JsValue :=
  match fields with
  | [] => None
  | (k, v) :: rest => if String.eqb k key then Some v else lookup_field key rest
  end.

(** [error instanceof Object] *)
Definition instanceof_Object (e : JsError) : bool :=
  match e with
  | ThrownPrimitive _ => false
  | _ => true
  end.

(** [key in error], for an [error] that is an object. *)
Definition key_in (key : string) (e : JsError) : bool :=
  match e with
  | ThrownObject fields =>
      match lookup_field key fields with Some _ => true | None => false end
  | _ => false
  end.

(** [error.status === 403] *)
Definition status_is_403 (e : JsError) : bool :=
  match e with
  | ThrownObject fields =>
      match lookup_field "status" fields with
      | Some (VNum n) => Z.eqb n 403
      | _ => false
      end
  | _ => false
  end.

(** Truthiness of an optional string: [null], [undefined] and the empty
    string are falsy. *)
Definition truthy (s : option string) : bool :=
  match s with
  | Some s' => negb (String.eqb s' "")
  | None => false
  end.

(** ** Tasks: the body of an async function *)

Inductive LogLevel : Type := Trace | Debug | Error.

(** Synchronous calls, indexed by the type of what they return. *)
Inductive SyncOp : Type -> Type :=
| OpCancelActiveListeners : SyncOp unit
| OpLog (level : LogLevel) (msg : string) : SyncOp unit
| OpGetState : SyncOp RootState
| OpDispatch (a : Action) : SyncOp unit
| OpInitiateEnqueueBatch (arg : BatchConfig) (fixedCacheKey : string)
    : SyncOp nat
| OpInitiateCancelByBatchIds (batch_ids : list string) : SyncOp nat
| OpReset (req : nat) : SyncOp unit
| OpGetImageDTO (name : string) : SyncOp nat
| OpSignalAborted : SyncOp bool.

(** What can be awaited, indexed by the type of the value it resolves to. *)
Inductive Promise : Type -> Type :=
| PDelay (ms : Z) : Promise unit
| PTake (predicate : Action -> bool) : Promise Action
| PUnwrapEnqueueBatch (req : nat) : Promise EnqueueBatchResult
| PUnwrapCancelByBatchIds (req : nat) : Promise unit
| PImageDTO (req : nat) : Promise (option ImageDTO).

(** [delay] and [take] of the listener API reject with a [TaskAbortError]
    when the signal of their listener instance is aborted; a plain request
    promise does not look at the signal. *)
Definition cancel_aware {X} (p : Promise X) : bool :=
  match p with
  | PDelay _ => true
  | PTake _ => true
  | _ => false
  end.

(** An await continues with the resolved value ([inl]) or with the
    rejection ([inr]), which is thrown at the await. *)
Inductive Task (A : Type) : Type :=
| Ret (a : A)
| Throw (e : JsError)
| Sync (X : Type) (o : SyncOp X) (k : X -> Task A)
| Await (X : Type) (p : Promise X) (k : X + JsError -> Task A)
| Fork (detached : Task unit) (k : Task A).

Arguments Ret {A} a.
Arguments Throw {A} e.
Arguments Sync {A X} o k.
Arguments Await {A X} p k.
Arguments Fork {A} detached k.

Fixpoint bind {A B} (m : Task A) (f : A -> Task B) : Task B :=
  match m with
  | Ret a => f a
  | Throw e => Throw e
  | Sync o k => Sync o (fun x => bind (k x) f)
  | Await p k => Await p (fun r => bind (k r) f)
  | Fork d k => Fork d (bind k f)
  end.

(** [try { body } catch (error) { handler error }]: a rejection inside a
    detached call is not caught here. *)
Fixpoint try_catch {A} (body : Task A) (handler : JsError -> Task A) : Task A :=
  match body with
  | Ret a => Ret a
  | Throw e => handler e
  | Sync o k => Sync o (fun x => try_catch (k x) handler)
  | Await p k => Await p (fun r => try_catch (k r) handler)
  | Fork d k => Fork d (try_catch k handler)
  end.

(** [try { body } finally { final }] *)
Definition try_finally {A} (body : Task A) (final : Task unit) : Task A :=
  bind (try_catch (bind body (fun a => Ret (inl a)))
                  (fun e => Ret (inr e)))
       (fun r : A + JsError =>
          bind final (fun _ =>
            match r with
            | inl a => Ret a
            | inr e => Throw e
            end)).

Definition sync {X} (o : SyncOp X) : Task X := Sync o (fun x => Ret x).

(** The value of an expression that may throw. *)
Definition evaluate {A} (v : A + JsError) : Task A :=
  match v with
  | inl a => Ret a
  | inr e => Throw e
  end.

Definition await {X} (p : Promise X) : Task X := Await p evaluate.

Definition fork (detached : Task unit) : Task unit := Fork detached (Ret tt).

Notation "x <- m ;; k" := (bind m (fun x => k))
  (at level 61, m at next level, right associativity).
Notation "m ;; k" := (bind m (fun _ => k))
  (at level 61, right associativity).

Definition assert (cond : bool) (message : string) : Task unit :=
  if cond then Ret tt else Throw (AssertionError message).

Definition when (cond : bool) (body : Task unit) : Task unit :=
  if cond then body else Ret tt.

(** [if (s) { body(s) }] for an optional string [s]. *)
Definition when_truthy (s : option string) (body : string -> Task unit)
  : Task unit :=
  match s with
  | Some v => when (truthy s) (body v)
  | None => Ret tt
  end.

(** ** The runtime: store, threads and trace *)

(** What a thread does to the outside, in the order it does it. *)
Inductive Event : Type :=
| EvCancelActiveListeners
| EvLog (level : LogLevel) (msg : string)
| EvDispatch (a : Action)
| EvInitiateEnqueueBatch (req : nat) (arg : BatchConfig)
                         (fixedCacheKey : string)
| EvInitiateCancelByBatchIds (req : nat) (batch_ids : list string)
| EvGetImageDTO (req : nat) (name : string)
| EvReset (req : nat).

(** State writes and network calls. *)
Definition is_dispatch (e : Event) : bool :=
  match e with
  | EvDispatch _ => true
  | _ => false
  end.

Definition is_network_call (e : Event) : bool :=
  match e with
  | EvInitiateEnqueueBatch _ _ _ => true
  | EvInitiateCancelByBatchIds _ _ => true
  | EvGetImageDTO _ _ => true
  | _ => false
  end.

Definition is_enqueue (e : Event) : bool :=
  match e with
  | EvInitiateEnqueueBatch _ _ _ => true
  | _ => false
  end.

(** A thread is a running async function: a listener instance, or a call
    that was not awaited.  [since] is the time at which it suspended. *)
Inductive Status : Type :=
| Blocked (X : Type) (p : Promise X) (since : Z)
          (k : X + JsError -> Task unit)
| Done
| Failed (e : JsError).

Arguments Blocked {X} p since k.

(** [owner] is the listener instance whose signal the thread sees: the
    thread itself for an instance, the caller for a detached call. *)
Record Thread : Type := mkThread {
  owner : nat;
  status : Status
}.

Record World : Type := mkWorld {
  store : RootState;
  trace : list (nat * Event);
  now : Z;
  next_req : nat;
  aborted : list nat;
  threads : list Thread
}.

Definition boot (s : RootState) : World :=
  {| store := s; trace := []; now := 0; next_req := 0;
     aborted := []; threads := [] |}.

Definition record_event (self : nat) (e : Event) (w : World) : World :=
  {| store := store w; trace := trace w ++ [(self, e)]; now := now w;
     next_req := next_req w; aborted := aborted w; threads := threads w |}.

Definition set_store (s : RootState) (w : World) : World :=
  {| store := s; trace := trace w; now := now w;
     next_req := next_req w; aborted := aborted w; threads := threads w |}.

Definition fresh_req (w : World) : World :=
  {| store := store w; trace := trace w; now := now w;
     next_req := S (next_req w); aborted := aborted w;
     threads := threads w |}.

Definition set_threads (ths : list Thread) (w : World) : World :=
  {| store := store w; trace := trace w; now := now w;
     next_req := next_req w; aborted := aborted w; threads := ths |}.

Definition is_aborted (self : nat) (w : World) : bool :=
  existsb (Nat.eqb self) (aborted w).

(** The listener instances that are still running, as the [pending] set of
    the listener entry has them. *)
Definition is_pending_instance (ths : list Thread) (i : nat) : bool :=
  match nth_error ths i with
  | Some {| owner := o; status := Blocked _ _ _ |} => Nat.eqb o i
  | _ => false
  end.

(** [cancelActiveListeners()]: abort every other running instance. *)
Definition abort_others (self : nat) (w : World) : World :=
  {| store := store w; trace := trace w; now := now w;
     next_req := next_req w;
     aborted :=
       aborted w ++
       filter (fun i => negb (Nat.eqb i self) && negb (is_aborted i w)
                        && is_pending_instance (threads w) i)
              (seq 0 (length (threads w)));
     threads := threads w |}.

(** Modelled from the spec: the reducers of [controlLayersSlice] for the
    actions the listener dispatches (the slice is not among the sources).
    The processed-image and pending-batch events record their payload on
    the layer, the image event sets the source image; a toast does not
    touch the layers. *)
Definition update_controlAdapter (layerId : string)
    (f : ControlAdapter -> ControlAdapter) (s : RootState) : RootState :=
  map (fun l =>
         match l with
         | ControlAdapterLayer ca =>
             if String.eqb (id ca) layerId
             then ControlAdapterLayer
                    {| id := id ca; controlAdapter := f (controlAdapter ca) |}
             else l
         | OtherLayer _ => l
         end) s.

Definition controlLayersReducer (s : RootState) (a : Action) : RootState :=
  match a with
  | caLayerProcessedImageChanged layerId imageDTO =>
      update_controlAdapter layerId
        (fun ca => {| image := image ca;
                      processorConfig := processorConfig ca;
                      processedImage := imageDTO;
                      processorPendingBatchId := processorPendingBatchId ca |})
        s
  | caLayerProcessorPendingBatchIdChanged layerId batchId =>
      update_controlAdapter layerId
        (fun ca => {| image := image ca;
                      processorConfig := processorConfig ca;
                      processedImage := processedImage ca;
                      processorPendingBatchId := batchId |})
        s
  | caLayerImageChanged layerId imageDTO =>
      update_controlAdapter layerId
        (fun ca => {| image := imageDTO;
                      processorConfig := processorConfig ca;
                      processedImage := processedImage ca;
                      processorPendingBatchId := processorPendingBatchId ca |})
        s
  | _ => s
  end.

(** How a synchronous stretch of a task ends. *)
Inductive Outcome (A : Type) : Type :=
| Returned (a : A)
| Raised (e : JsError)
| Suspended (X : Type) (p : Promise X) (k : X + JsError -> Task A).

Arguments Returned {A} a.
Arguments Raised {A} e.
Arguments Suspended {A X} p k.

Definition to_status (r : Outcome unit) (since : Z) : Status :=
  match r with
  | Returned _ => Done
  | Raised e => Failed e
  | Suspended p k => Blocked p since k
  end.

Definition spawn (self : nat) (st : Status) (w : World) : World :=
  set_threads (threads w ++ [{| owner := self; status := st |}]) w.

Fixpoint set_nth {A} (n : nat) (x : A) (l : list A) : list A :=
  match l, n with
  | [], _ => []
  | _ :: rest, O => x :: rest
  | y :: rest, S n' => y :: set_nth n' x rest
  end.

Definition set_status (tid : nat) (st : Status) (w : World) : World :=
  match nth_error (threads w) tid with
  | Some th =>
      set_threads (set_nth tid {| owner := owner th; status := st |}
                           (threads w)) w
  | None => w
  end.

(** What settles a promise: given the promise, the time it was awaited at
    and whether the signal of its owner is aborted. *)
Definition Wake : Type :=
  forall X : Type, Promise X -> Z -> bool -> option (X + JsError).

Section Runtime.

(** What the listener middleware does with an action once the reducers
    have run: [dispatch] of the store passes every action through it, the
    actions the effect itself dispatches included. *)
Variable notify : Action -> World -> World.

(** One synchronous call of thread [self]. *)
Definition exec_sync (self : nat) {X} (o : SyncOp X) (w : World) : X * World :=
  match o in SyncOp X return X * World with
  | OpCancelActiveListeners =>
      (tt, record_event self EvCancelActiveListeners (abort_others self w))
  | OpLog level msg => (tt, record_event self (EvLog level msg) w)
  | OpGetState => (store w, w)
  | OpDispatch a =>
      (tt, notify a
             (record_event self (EvDispatch a)
                (set_store (controlLayersReducer (store w) a) w)))
  | OpInitiateEnqueueBatch arg key =>
      (next_req w,
       record_event self (EvInitiateEnqueueBatch (next_req w) arg key)
                    (fresh_req w))
  | OpInitiateCancelByBatchIds ids =>
      (next_req w,
       record_event self (EvInitiateCancelByBatchIds (next_req w) ids)
                    (fresh_req w))
  | OpReset req => (tt, record_event self (EvReset req) w)
  | OpGetImageDTO name =>
      (next_req w,
       record_event self (EvGetImageDTO (next_req w) name) (fresh_req w))
  | OpSignalAborted => (is_aborted self w, w)
  end.

(** Run a task up to its next suspension.  [delay] and [take] throw at
    once under an aborted signal; a detached call runs up to its own first
    suspension and is then left to the event loop, whatever it throws. *)
Fixpoint run_sync (A : Type) (self : nat) (task : Task A) (w : World)
  : Outcome A * World :=
  match task with
  | Ret a => (Returned a, w)
  | Throw e => (Raised e, w)
  | Sync o k =>
      let (x, w') := exec_sync self o w in run_sync self (k x) w'
  | Await p k =>
      if cancel_aware p && is_aborted self w
      then run_sync self (k (inr TaskAbortError)) w
      else (Suspended p k, w)
  | Fork detached k =>
      let (r, w') := run_sync self detached w in
      run_sync self k (spawn self (to_status r (now w')) w')
  end.

(** Thread [tid] has run up to its next suspension, or to its end. *)
Definition finish (tid : nat) (r : Outcome unit * World) : World :=
  let (out, w') := r in set_status tid (to_status out (now w')) w'.

(** Start an instance of the listener as thread [length (threads w)]: the
    effect runs at once, up to its first suspension. *)
Definition start (task : Task unit) (w : World) : World :=
  let tid := length (threads w) in
  finish tid (run_sync tid task (spawn tid Done w)).

(** Resume thread [tid] if [wake] settles the promise it is blocked on. *)
Definition step_thread (wake : Wake) (tid : nat) (w : World) : World :=
  match nth_error (threads w) tid with
  | Some {| owner := o; status := Blocked p since k |} =>
      match wake _ p since (is_aborted o w) with
      | Some r => finish tid (run_sync o (k r) w)
      | None => w
      end
  | _ => w
  end.

Definition step_threads (wake : Wake) (tids : list nat) (w : World) : World :=
  fold_left (fun w' tid => step_thread wake tid w') tids w.

End Runtime.

(** An action goes through the listener middleware: an aborted [delay] or
    [take] rejects, a [take] whose predicate accepts the action resolves
    with it. *)
Definition wake_action (a : Action) : Wake :=
  fun X p _ is_abrt =>
    match p in Promise X return option (X + JsError) with
    | PDelay _ => if is_abrt then Some (inr TaskAbortError) else None
    | PTake predicate =>
        if is_abrt then Some (inr TaskAbortError)
        else if predicate a then Some (inl a) else None
    | _ => None
    end.

(** A timer fires once its delay has passed. *)
Definition wake_timer (time : Z) : Wake :=
  fun X p since is_abrt =>
    match p in Promise X return option (X + JsError) with
    | PDelay ms =>
        if is_abrt then Some (inr TaskAbortError)
        else if since + ms <=? time then Some (inl tt) else None
    | _ => None
    end.

(** What the backend answers.  [getImageDTO] resolves to the descriptor or
    to [null]; a request resolves or is rejected. *)
Inductive Response : Type :=
| EnqueueBatchOk (r : EnqueueBatchResult)
| CancelByBatchIdsOk
| ImageDTOResult (imageDTO : option ImageDTO)
| Rejected (e : JsError).

Definition wake_response (r : Response) : Wake :=
  fun X p _ _ =>
    match p in Promise X return option (X + JsError) with
    | PUnwrapEnqueueBatch _ =>
        match r with
        | EnqueueBatchOk res => Some (inl res)
        | Rejected e => Some (inr e)
        | _ => None
        end
    | PUnwrapCancelByBatchIds _ =>
        match r with
        | CancelByBatchIdsOk => Some (inl tt)
        | Rejected e => Some (inr e)
        | _ => None
        end
    | PImageDTO _ =>
        match r with
        | ImageDTOResult d => Some (inl d)
        | _ => None
        end
    | _ => None
    end.

(** ** The listener *)

(** An entry of [CA_PROCESSOR_DATA]: [buildNode(image, config)] returns a
    node or throws.  The listener passes the image of the layer as it is,
    [null] included. *)
Record ProcessorData : Type := mkProcessorData {
  buildNode : option ImageDTO -> ProcessorConfig -> Node + JsError
}.

(** [layers.filter(isControlAdapterLayer).find((l) => l.id === layerId)] *)
Definition find_layer (layerId : string) (state : RootState) : option CALayer :=
  find (fun l => String.eqb (id l) layerId)
       (filter_guard isControlAdapterLayer state).

(** [cancelProcessorBatch(dispatch, layerId, batchId)] *)
Definition cancelProcessorBatch (layerId batchId : string) : Task unit :=
  req <- sync (OpInitiateCancelByBatchIds [batchId]) ;;
  sync (OpLog Trace "Cancelling existing preprocessor batch") ;;
  try_finally
    (try_catch (await (PUnwrapCancelByBatchIds req))
               (fun _ => Ret tt))
    (sync (OpReset req) ;;
     sync (OpDispatch (caLayerProcessorPendingBatchIdChanged layerId None))).

Section Listener.

(** [CA_PROCESSOR_DATA] of [features/controlLayers/util/controlAdapters],
    which is not among the sources: a table from processor kinds to their
    data; a kind that is not a key has no entry. *)
Variable CA_PROCESSOR_DATA : string -> option ProcessorData.

(** [CA_PROCESSOR_DATA[config.type].buildNode(image, config)]: reading
    [type] of a [null] config, or [buildNode] of a missing entry, throws a
    [TypeError]. *)
Definition build_processor_node (image : option ImageDTO)
    (config : option ProcessorConfig) : Node + JsError :=
  match config with
  | None => inr TypeError
  | Some c =>
      match CA_PROCESSOR_DATA (cfg_type c) with
      | None => inr TypeError
      | Some data => buildNode data image c
      end
  end.

Definition enqueue_batch_arg (processorNode : Node) : BatchConfig :=
  {| prepend := true;
     batch :=
       {| graph :=
            {| nodes :=
                 [(node_id processorNode,
                   {| node_id := node_id processorNode;
                      node_type := node_type processorNode;
                      node_image := node_image processorNode;
                      is_intermediate := true |})];
               edges := [] |};
          runs := 1 |} |}.

(** The predicate given to [take]. *)
Definition is_completion_of (batch_id : option string) (processorNode : Node)
    (action : Action) : bool :=
  match action with
  | socketInvocationComplete data =>
      match batch_id with
      | Some b => String.eqb (queue_batch_id data) b
      | None => false
      end
      && String.eqb (source_node_id data) (node_id processorNode)
  | _ => false
  end.

(** [action.payload.layerId] of a matched action. *)
Definition payload_layerId (action : Action) : option string :=
  match action with
  | caLayerImageChanged layerId _ => Some layerId
  | caLayerProcessorConfigChanged layerId _ => Some layerId
  | caLayerModelChanged layerId _ => Some layerId
  | _ => None
  end.

(** [caLayerRecalled.match(action) ? action.payload.id
                                   : action.payload.layerId] *)
Definition action_layerId (action : Action) : option string :=
  match action with
  | caLayerRecalled layer => Some (id layer)
  | _ => payload_layerId action
  end.

(** The test of the [catch] clause for an access-denied response:
    [error instanceof Object], ['data' in error && 'status' in error] and
    [error.status === 403]. *)
Definition is_forbidden_response (error : JsError) : bool :=
  instanceof_Object error
  && (key_in "data" error && key_in "status" error)
  && status_is_403 error.

(** The [catch] clause of the effect. *)
Definition on_error (layerId : string) (error : JsError) : Task unit :=
  aborted <- sync OpSignalAborted ;;
  if aborted : bool then
    state <- sync OpGetState ;;
    let pendingBatchId :=
      match find_layer layerId state with
      | Some l => processorPendingBatchId (controlAdapter l)
      | None => None
      end in
    when_truthy pendingBatchId
      (fun b => fork (cancelProcessorBatch layerId b)) ;;
    sync (OpLog Trace "Control Adapter preprocessor cancelled")
  else
    sync (OpLog Error "queue.graphFailedToQueue") ;;
    if is_forbidden_response error
    then sync (OpDispatch (caLayerImageChanged layerId None))
    else
      sync (OpDispatch (addToast (i18n_t "queue.graphFailedToQueue") "error")).

(** The [try] block of the effect, last part: from the [assert] on the
    fetched descriptor to the two final dispatches. *)
Definition reconcile (layerId : string) (imageDTO : option ImageDTO)
  : Task unit :=
  assert (match imageDTO with Some _ => true | None => false end)
         "Failed to fetch processor output's image DTO" ;;
  sync (OpLog Debug "ControlNet image processed") ;;
  sync (OpDispatch (caLayerProcessedImageChanged layerId imageDTO)) ;;
  sync (OpDispatch (caLayerProcessorPendingBatchIdChanged layerId None)).

(** The [try] block, middle part: from the action [take] resolved with to
    the fetch of the descriptor.  [take] narrows the action to an
    invocation-complete event, and [assert] narrows its result to an image
    output. *)
Definition on_invocation_complete (layerId : string)
    (invocationCompleteAction : Action) : Task unit :=
  match invocationCompleteAction with
  | socketInvocationComplete data =>
      assert (isImageOutput (result data))
             "Processor did not return an image output" ;;
      match result data with
      | ImageOutput image_name _ _ =>
          fetch <- sync (OpGetImageDTO image_name) ;;
          imageDTO <- await (PImageDTO fetch) ;;
          reconcile layerId imageDTO
      | OtherOutput _ => Throw TypeError
      end
  | _ => Throw TypeError
  end.

(** The [try] block, first part: from the result of the submission to the
    wait for the completion event. *)
Definition on_enqueued (layerId : string) (processorNode : Node)
    (enqueueResult : EnqueueBatchResult) : Task unit :=
  assert (truthy (batch_id enqueueResult))
         "Batch ID not returned from queue" ;;
  sync (OpDispatch (caLayerProcessorPendingBatchIdChanged
                      layerId (batch_id enqueueResult))) ;;
  sync (OpLog Debug "queue.graphQueued") ;;
  invocationCompleteAction <-
    await (PTake (is_completion_of (batch_id enqueueResult)
                                   processorNode)) ;;
  on_invocation_complete layerId invocationCompleteAction.

(** The [effect] of the listener, from [cancelActiveListeners()] on;
    [layerId] has been read from the action. *)
Definition effect (layerId : string) : Task unit :=
  sync OpCancelActiveListeners ;;
  sync (OpLog Trace "Control Layer CA auto-process triggered") ;;
  await (PDelay DEBOUNCE_MS) ;;
  state <- sync OpGetState ;;
  match find_layer layerId state with
  | None => Ret tt
  | Some layer =>
      let image := image (controlAdapter layer) in
      let config := processorConfig (controlAdapter layer) in
      when (match image with None => true | Some _ => false end
            || match config with None => true | Some _ => false end)
           (sync (OpDispatch (caLayerProcessedImageChanged layerId None))) ;;
      when_truthy (processorPendingBatchId (controlAdapter layer))
        (fun b => fork (cancelProcessorBatch layerId b)) ;;
      processorNode <- evaluate (build_processor_node image config) ;;
      let enqueueBatchArg := enqueue_batch_arg processorNode in
      req <- sync (OpInitiateEnqueueBatch enqueueBatchArg "enqueueBatch") ;;
      try_finally
        (try_catch
           (enqueueResult <- await (PUnwrapEnqueueBatch req) ;;
            on_enqueued layerId processorNode enqueueResult)
           (on_error layerId))
        (sync (OpReset req))
  end.

(** The listener entry, [startAppListening({ matcher, effect })]: the
    effect runs for the actions [matcher] accepts, and for no other. *)
Definition listener (action : Action) : option (Task unit) :=
  if matcher action then option_map effect (action_layerId action) else None.


(** *** The event loop *)

(** What happens around the listener, one step at a time. *)
Inductive Decision : Type :=
| Fire (a : Action)
| SetStore (s : RootState)
| Advance (dt : Z)
| Respond (tid : nat) (r : Response).

(** [dt] units of time pass; a negative [dt] is no time. *)
Definition tick (dt : Z) (w : World) : World :=
  {| store := store w; trace := trace w; now := now w + Z.max 0 dt;
     next_req := next_req w; aborted := aborted w; threads := threads w |}.

(** The listener middleware: an action the matcher accepts starts an
    instance of the effect, inside the [dispatch] that carries it.
    [depth] bounds the nesting, an instance started inside a dispatch of
    an instance started inside a dispatch, and so on; the effect dispatches
    nothing before its first [await], so that one level is all there is
    ([nesting_is_bounded]). *)
Fixpoint notifyListeners (depth : nat) (a : Action) (w : World) : World :=
  match depth with
  | O => w
  | S d =>
      match listener a with
      | Some task => start (notifyListeners d) task w
      | None => w
      end
  end.

Definition middleware : Action -> World -> World := notifyListeners 1.

(** [Fire a]: the application has dispatched [a] and the reducers have
    run (what they did to the layers is a [SetStore] of the schedule, the
    reducers of the application being outside the sources); the listener
    middleware now sees [a].  [SetStore s]: the layers become [s].
    [Advance dt]: [dt] units of time pass.  [Respond tid r]: the request
    thread [tid] awaits is answered by [r]. *)
Definition decide (d : Decision) (w : World) : World :=
  match d with
  | Fire a =>
      let tids := seq 0 (length (threads w)) in
      let w1 := match listener a with
                | Some task => start middleware task w
                | None => w
                end in
      step_threads middleware (wake_action a) tids w1
  | SetStore s => set_store s w
  | Advance dt =>
      let w1 := tick dt w in
      step_threads middleware (wake_timer (now w1))
                   (seq 0 (length (threads w1))) w1
  | Respond tid r => step_thread middleware (wake_response r) tid w
  end.

Definition loop (schedule : list Decision) (w : World) : World :=
  fold_left (fun w' d => decide d w') schedule w.

End Listener.

(** *** Reading a run *)

(** The events of listener instance [i], its detached calls included. *)
Definition events_of (i : nat) (w : World) : list Event :=
  map snd (filter (fun e => Nat.eqb (fst e) i) (trace w)).

(** Where a thread stands. *)
Inductive Phase : Type :=
| Debouncing
| Submitting (req : nat)
| AwaitingCompletion
| FetchingImage (req : nat)
| Cancelling (req : nat)
| Finished
| Cancelled
| Crashed (e : JsError).

Definition phase (st : Status) : Phase :=
  match st with
  | Blocked p _ _ =>
      match p with
      | PDelay _ => Debouncing
      | PTake _ => AwaitingCompletion
      | PUnwrapEnqueueBatch req => Submitting req
      | PUnwrapCancelByBatchIds req => Cancelling req
      | PImageDTO req => FetchingImage req
      end
  | Done => Finished
  | Failed TaskAbortError => Cancelled
  | Failed e => Crashed e
  end.

Definition phases (w : World) : list Phase :=
  map (fun th => phase (status th)) (threads w).


Definition processedImage_of (layerId : string) (s : RootState)
  : option (option ImageDTO) :=
  option_map (fun l => processedImage (controlAdapter l))
             (find_layer layerId s).

Definition pendingBatchId_of (layerId : string) (s : RootState)
  : option (option string) :=
  option_map (fun l => processorPendingBatchId (controlAdapter l))
             (find_layer layerId s).

Definition is_toast (e : Event) : bool :=
  match e with
  | EvDispatch (addToast _ _) => true
  | _ => false
  end.

(** A dispatch that records a processed-output image on a layer. *)
Definition is_processed_image_write (e : Event) : bool :=
  match e with
  | EvDispatch (caLayerProcessedImageChanged _ (Some _)) => true
  | _ => false
  end.

Definition is_image_change (e : Event) : bool :=
  match e with
  | EvDispatch (caLayerImageChanged _ _) => true
  | _ => false
  end.

Definition is_pending_change (e : Event) : bool :=
  match e with
  | EvDispatch (caLayerProcessorPendingBatchIdChanged _ _) => true
  | _ => false
  end.



(** The answer to a cancellation request: it fails with an error, or
    succeeds. *)
Definition cancel_answer (failure : option JsError) : Response :=
  match failure with
  | Some e => Rejected e
  | None => CancelByBatchIdsOk
  end.

(** What a cancelled instance does between [w] and [w'], [s] being the
    layers it reads when it notices and [pre] what it did before it
    noticed: it ends normally; when layer [lid] has a truthy pending batch
    identifier in [s], it requests the cancellation of that batch, logs
    and resets its request, and the detached call (the last thread) ends
    normally whatever the answer; otherwise it only logs and resets. *)
Definition compensates (T : string -> option ProcessorData)
    (lid : string) (s : RootState) (pre : list Event) (w w' : World) : Prop :=
  nth_error (phases w') 0 = Some Finished /\
  (forall p,
     pendingBatchId_of lid s = Some (Some p) -> truthy (Some p) = true ->
     (exists req,
        events_of 0 w' =
          (events_of 0 w ++ pre ++
           [EvInitiateCancelByBatchIds (next_req w) [p];
            EvLog Trace "Cancelling existing preprocessor batch";
            EvLog Trace "Control Adapter preprocessor cancelled";
            EvReset req])%list) /\
     (forall failure,
        let tid := pred (length (threads w')) in
        nth_error (phases (loop T [Respond tid (cancel_answer failure)] w'))
                  tid
        = Some Finished)) /\
  ((forall p,
      pendingBatchId_of lid s = Some (Some p) -> truthy (Some p) = false) ->
   exists req,
     events_of 0 w' =
       (events_of 0 w ++ pre ++
        [EvLog Trace "Control Adapter preprocessor cancelled";
         EvReset req])%list).

(** What the instance has done before it builds the node, on a layer it
    has found: the processed image is cleared exactly when the image or
    the configuration is missing. *)
Definition clears (l : CALayer) (lid : string) : list Event :=
  match image (controlAdapter l), processorConfig (controlAdapter l) with
  | Some _, Some _ => []
  | _, _ => [EvDispatch (caLayerProcessedImageChanged lid None)]
  end.



(** The data of a run stay folded under [cbn]; the proofs rewrite them
    with their hypotheses. *)
Arguments find_layer : simpl never.
Arguments truthy : simpl never.
Arguments is_completion_of : simpl never.
Arguments is_forbidden_response : simpl never.
Arguments controlLayersReducer : simpl never.
Arguments enqueue_batch_arg : simpl never.
Arguments build_processor_node : simpl never.
Arguments DEBOUNCE_MS : simpl never.

(** ** Sample data

    A processor table with one kind, whose builder copies the configuration
    and reads the name of the image when there is one; two images, a
    configuration and a layer. *)

Module Sample.

Definition canny : ProcessorData :=
  {| buildNode := fun image config =>
       inl {| node_id := cfg_id config;
              node_type := cfg_type config;
              node_image := option_map image_name image;
              is_intermediate := false |} |}.

Definition table (kind : string) : option ProcessorData :=
  if String.eqb kind "canny_image_processor" then Some canny else None.

(** A builder that reads [image.image_name]: it throws on a [null]
    image. *)
Definition canny_strict : ProcessorData :=
  {| buildNode := fun image config =>
       match image with
       | Some i =>
           inl {| node_id := cfg_id config;
                  node_type := cfg_type config;
                  node_image := Some (image_name i);
                  is_intermediate := false |}
       | None => inr TypeError
       end |}.

Definition strict_table (kind : string) : option ProcessorData :=
  if String.eqb kind "canny_image_processor" then Some canny_strict else None.

Definition I1 : ImageDTO :=
  {| image_name := "in.png"; width := 512; height := 512 |}.

Definition out : ImageDTO :=
  {| image_name := "out.png"; width := 512; height := 512 |}.

Definition config : ProcessorConfig :=
  {| cfg_id := "N1"; cfg_type := "canny_image_processor" |}.

Definition N1 : Node :=
  {| node_id := "N1"; node_type := "canny_image_processor";
     node_image := Some "in.png"; is_intermediate := false |}.

(** Layer [L1] with the given image, configuration and pending batch. *)
Definition layer (image : option ImageDTO) (config : option ProcessorConfig)
    (pending : option string) : CALayer :=
  {| id := "L1";
     controlAdapter :=
       {| image := image; processorConfig := config;
          processedImage := None; processorPendingBatchId := pending |} |}.

Definition L1 : CALayer := layer (Some I1) (Some config) None.

Definition edit : Action := caLayerImageChanged "L1" (Some I1).

Definition completion (r : InvocationResult) : Action :=
  socketInvocationComplete
    {| queue_batch_id := "B1"; source_node_id := "N1"; result := r |}.

End Sample.

(** ** The appInfo endpoints *)

Module AppInfo.

Inductive EndpointKind : Type := Query | Mutation.

Inductive Tag : Type := FetchOnReconnect | InvocationCacheStatus.

Definition tag_eqb (a b : Tag) : bool :=
  match a, b with
  | FetchOnReconnect, FetchOnReconnect => true
  | InvocationCacheStatus, InvocationCacheStatus => true
  | _, _ => false
  end.

(** An endpoint built by [build.query] or [build.mutation]; a query has no
    [invalidatesTags] and a mutation no [providesTags]. *)
Record Endpoint : Type := mkEndpoint {
  name : string;
  kind : EndpointKind;
  url : string;
  method : string;
  providesTags : list Tag;
  invalidatesTags : list Tag
}.

Definition getAppVersion : Endpoint :=
  {| name := "getAppVersion"; kind := Query;
     url := "app/version"; method := "GET";
     providesTags := [FetchOnReconnect]; invalidatesTags := [] |}.

Definition getAppDeps : Endpoint :=
  {| name := "getAppDeps"; kind := Query;
     url := "app/app_deps"; method := "GET";
     providesTags := [FetchOnReconnect]; invalidatesTags := [] |}.

Definition getAppConfig : Endpoint :=
  {| name := "getAppConfig"; kind := Query;
     url := "app/config"; method := "GET";
     providesTags := [FetchOnReconnect]; invalidatesTags := [] |}.

Definition getInvocationCacheStatus : Endpoint :=
  {| name := "getInvocationCacheStatus"; kind := Query;
     url := "app/invocation_cache/status"; method := "GET";
     providesTags := [InvocationCacheStatus; FetchOnReconnect];
     invalidatesTags := [] |}.

Definition clearInvocationCache : Endpoint :=
  {| name := "clearInvocationCache"; kind := Mutation;
     url := "app/invocation_cache"; method := "DELETE";
     providesTags := []; invalidatesTags := [InvocationCacheStatus] |}.

Definition enableInvocationCache : Endpoint :=
  {| name := "enableInvocationCache"; kind := Mutation;
     url := "app/invocation_cache/enable"; method := "PUT";
     providesTags := []; invalidatesTags := [InvocationCacheStatus] |}.

Definition disableInvocationCache : Endpoint :=
  {| name := "disableInvocationCache"; kind := Mutation;
     url := "app/invocation_cache/disable"; method := "PUT";
     providesTags := []; invalidatesTags := [InvocationCacheStatus] |}.

(** [appInfoApi]: the endpoints injected, in the order of the source. *)
Definition appInfoApi : list Endpoint :=
  [getAppVersion; getAppDeps; getAppConfig; getInvocationCacheStatus;
   clearInvocationCache; enableInvocationCache; disableInvocationCache].

Definition is_query (e : Endpoint) : bool :=
  match kind e with Query => true | Mutation => false end.

Definition is_mutation (e : Endpoint) : bool :=
  match kind e with Mutation => true | Query => false end.

Definition has_tag (tg : Tag) (tags : list Tag) : bool :=
  existsb (tag_eqb tg) tags.

(** The endpoints of the invocation cache: those under
    [app/invocation_cache]. *)
Definition is_cache_control (e : Endpoint) : bool :=
  String.prefix "app/invocation_cache" (url e).

End AppInfo.

(** * Properties *)

Local Open Scope list_scope.

(** ** Running a schedule, one decision at a time *)

Lemma quiet_period_over dt :
  DEBOUNCE_MS <= dt -> (DEBOUNCE_MS <=? Z.max 0 dt) = true.
Proof. intros H. apply Z.leb_le. unfold DEBOUNCE_MS in *. lia. Qed.

Lemma quiet_period_running dt :
  0 <= dt < DEBOUNCE_MS -> (DEBOUNCE_MS <=? Z.max 0 dt) = false.
Proof. intros H. apply Z.leb_gt. unfold DEBOUNCE_MS in *. lia. Qed.

Lemma quiet_period_over_from t dt :
  DEBOUNCE_MS <= dt -> (t + DEBOUNCE_MS <=? t + Z.max 0 dt) = true.
Proof. intros H. apply Z.leb_le. unfold DEBOUNCE_MS in *. lia. Qed.

Lemma loop_cons T d l w : loop T (d :: l) w = loop T l (decide T d w).
Proof. reflexivity. Qed.

Lemma loop_nil T w : loop T [] w = w.
Proof. reflexivity. Qed.

Lemma loop_app T l1 l2 w : loop T (l1 ++ l2) w = loop T l2 (loop T l1 w).
Proof. apply fold_left_app. Qed.


Lemma listener_trigger T a lid :
  action_layerId a = Some lid -> listener T a = Some (effect T lid).
Proof.
  destruct a; cbn; intros H; try discriminate; inversion H; reflexivity.
Qed.

Lemma fire_trigger T a lid w :
  action_layerId a = Some lid ->
  decide T (Fire a) w =
  step_threads (middleware T) (wake_action a) (seq 0 (length (threads w)))
               (start (middleware T) (effect T lid) w).
Proof.
  intros H. unfold decide. rewrite (listener_trigger T _ H). reflexivity.
Qed.

Lemma fire_other T a w :
  matcher a = false ->
  decide T (Fire a) w =
  step_threads (middleware T) (wake_action a) (seq 0 (length (threads w))) w.
Proof. intros H. unfold decide, listener. rewrite H. reflexivity. Qed.

Lemma advance_eq T dt w :
  decide T (Advance dt) w =
  step_threads (middleware T) (wake_timer (now (tick dt w)))
               (seq 0 (length (threads (tick dt w)))) (tick dt w).
Proof. reflexivity. Qed.

(** A dispatch of the effect that is no trigger starts nothing; one that
    is a trigger starts an instance. *)
Lemma middleware_other T a w : matcher a = false -> middleware T a w = w.
Proof.
  intros H. unfold middleware, notifyListeners, listener. rewrite H.
  reflexivity.
Qed.

Lemma middleware_trigger T a lid w :
  action_layerId a = Some lid ->
  middleware T a w = start (notifyListeners T 0) (effect T lid) w.
Proof.
  intros H. unfold middleware. cbn [notifyListeners].
  rewrite (listener_trigger T _ H). reflexivity.
Qed.

Lemma step_thread_woken N wake tid w o X (p : Promise X) since k x :
  nth_error (threads w) tid
  = Some {| owner := o; status := Blocked p since k |} ->
  wake X p since (is_aborted o w) = Some x ->
  step_thread N wake tid w = finish tid (run_sync N o (k x) w).
Proof. intros H1 H2. unfold step_thread. rewrite H1, H2. reflexivity. Qed.

Lemma step_thread_asleep N wake tid w o X (p : Promise X) since k :
  nth_error (threads w) tid
  = Some {| owner := o; status := Blocked p since k |} ->
  wake X p since (is_aborted o w) = None ->
  step_thread N wake tid w = w.
Proof. intros H1 H2. unfold step_thread. rewrite H1, H2. reflexivity. Qed.

Lemma step_thread_over N wake tid w :
  match nth_error (threads w) tid with
  | Some {| status := Blocked _ _ _ |} => False
  | _ => True
  end ->
  step_thread N wake tid w = w.
Proof.
  unfold step_thread.
  destruct (nth_error (threads w) tid) as [[o [X p s k| |e]]|];
    intros H; try reflexivity; contradiction.
Qed.

Lemma start_eq N task w :
  start N task w
  = finish (length (threads w))
      (run_sync N (length (threads w)) task
                (spawn (length (threads w)) Done w)).
Proof. reflexivity. Qed.

(** ** Running a task, one operation at a time *)

Lemma run_sync_Ret N A (a : A) i w :
  run_sync N i (Ret a) w = (Returned a, w).
Proof. reflexivity. Qed.

Lemma run_sync_Throw N A (e : JsError) i w :
  run_sync N i (Throw e : Task A) w = (Raised e, w).
Proof. reflexivity. Qed.

Lemma run_sync_Sync N A X (o : SyncOp X) (k : X -> Task A) i w :
  run_sync N i (Sync o k) w =
  run_sync N i (k (fst (exec_sync N i o w))) (snd (exec_sync N i o w)).
Proof. cbn. destruct (exec_sync N i o w). reflexivity. Qed.

Lemma run_sync_Await N A X (p : Promise X) (k : X + JsError -> Task A) i w :
  run_sync N i (Await p k) w =
  if cancel_aware p && is_aborted i w
  then run_sync N i (k (inr TaskAbortError)) w
  else (Suspended p k, w).
Proof. reflexivity. Qed.

Lemma run_sync_Fork N A (d : Task unit) (k : Task A) i w :
  run_sync N i (Fork d k) w =
  run_sync N i k
    (spawn i (to_status (fst (run_sync N i d w))
                        (now (snd (run_sync N i d w))))
           (snd (run_sync N i d w))).
Proof. cbn. destruct (run_sync N i d w). reflexivity. Qed.

Lemma run_sync_bind N A B (m : Task A) (f : A -> Task B) i w :
  run_sync N i (bind m f) w =
  match run_sync N i m w with
  | (Returned a, w') => run_sync N i (f a) w'
  | (Raised e, w') => (Raised e, w')
  | (Suspended p k, w') => (Suspended p (fun r => bind (k r) f), w')
  end.
Proof.
  revert f w.
  induction m as [A a|A e|A X o k IH|A X p k IH|A d IHd k IHk];
    intros f w; cbn.
  - reflexivity.
  - reflexivity.
  - destruct (exec_sync N i o w) as [x w']. apply IH.
  - destruct (cancel_aware p && is_aborted i w); [apply IH | reflexivity].
  - destruct (run_sync N i d w) as [r w']. apply IHk.
Qed.

Lemma run_sync_try_catch N A (m : Task A) (h : JsError -> Task A) i w :
  run_sync N i (try_catch m h) w =
  match run_sync N i m w with
  | (Returned a, w') => (Returned a, w')
  | (Raised e, w') => run_sync N i (h e) w'
  | (Suspended p k, w') => (Suspended p (fun r => try_catch (k r) h), w')
  end.
Proof.
  revert h w.
  induction m as [A a|A e|A X o k IH|A X p k IH|A d IHd k IHk];
    intros h w; cbn.
  - reflexivity.
  - reflexivity.
  - destruct (exec_sync N i o w) as [x w']. apply IH.
  - destruct (cancel_aware p && is_aborted i w); [apply IH | reflexivity].
  - destruct (run_sync N i d w) as [r w']. apply IHk.
Qed.

(** ** Tactics: a run of a schedule as a world *)

(** Rewrite with what is known of the delays of the run. *)
Ltac rew_hyps :=
  match goal with
  | H : DEBOUNCE_MS <= ?dt |- context [DEBOUNCE_MS <=? Z.max 0 ?dt] =>
      rewrite (quiet_period_over H)
  | H : DEBOUNCE_MS <= ?dt
    |- context [?t + DEBOUNCE_MS <=? ?t + Z.max 0 ?dt] =>
      rewrite (quiet_period_over_from t H)
  | H : 0 <= ?dt < DEBOUNCE_MS |- context [DEBOUNCE_MS <=? Z.max 0 ?dt] =>
      rewrite (quiet_period_running H)
  | H : ?x = _ |- ?lhs = _ =>
      tryif is_var x then fail else
      lazymatch lhs with context [x] => rewrite H end
  end.

(** Worlds as records, data by their constructors. *)
Ltac norm :=
  cbv beta iota zeta delta
    [boot exec_sync tick set_store set_threads record_event
     fresh_req spawn set_status to_status set_nth nth_error app length
     abort_others is_aborted is_pending_instance existsb filter seq
     Nat.eqb negb andb orb cancel_aware
     store trace now next_req aborted threads owner status fst snd];
  cbn [image processorConfig processedImage processorPendingBatchId
       controlAdapter id].

Ltac head t := lazymatch t with ?f _ => head f | _ => t end.

(** Rewrite, in a goal [_ = _], a hypothesis whose left side occurs in [t]. *)
Ltac rew_in t :=
  match goal with
  | H : ?x = _ |- _ =>
      tryif is_var x then fail else
      lazymatch t with context [x] => rewrite H end
  end.

(** A test at the head of the task [t]: computed, or decided by a
    hypothesis, or computed on a value a hypothesis has given. *)
Ltac decide_test t :=
  first [ progress norm
        | rew_in t; norm
        | progress cbv beta iota delta
            [isImageOutput is_forbidden_response instanceof_Object key_in
             status_is_403 andb] ].

(** A goal [run_sync N i t w = _]: run [t] to its outcome, by the
    equations of [run_sync]; a test on the data of the run is decided by a
    hypothesis; a dispatch that has gone through the middleware is settled
    before the task goes on. *)
Ltac run_task :=
  lazymatch goal with
  | |- run_sync ?N ?i ?t ?w = _ =>
      lazymatch w with
      | context [middleware ?T ?a ?W] =>
          first [ rewrite (@middleware_other T a W) by reflexivity
                | rewrite (@middleware_trigger T a _ W) by reflexivity;
                  rewrite start_eq; norm; evaluate_finish ];
          run_task
      | _ =>
        lazymatch t with
        | Ret ?a => rewrite (run_sync_Ret N a i w)
        | Throw ?e => rewrite (run_sync_Throw N _ e i w)
        | Sync ?o ?k => rewrite (run_sync_Sync N o k i w); norm; run_task
        | Await ?p ?k => rewrite (run_sync_Await N p k i w); norm; run_task
        | Fork ?d ?k =>
            rewrite (run_sync_Fork N d k i w); sub_run N i d w; norm;
            run_task
        | bind ?m ?f =>
            rewrite (run_sync_bind N m f i w); sub_run N i m w; norm;
            run_task
        | try_catch ?m ?h =>
            rewrite (run_sync_try_catch N m h i w); sub_run N i m w; norm;
            run_task
        | if _ then _ else _ => decide_test t; run_task
        | match _ with _ => _ end => decide_test t; run_task
        | _ =>
            let h := head t in
            let t' := eval cbv beta delta [h] in t in
            change (run_sync N i t w) with (run_sync N i t' w); norm;
            run_task
        end
      end
  | |- (_, _) = _ => idtac
  end
with sub_run N i t w :=
  let x := fresh "x" in
  let E := fresh "E" in
  set (x := run_sync N i t w);
  eassert (E : x = _) by (subst x; run_task; reflexivity);
  clearbody x; subst x
with evaluate_finish :=
  match goal with
  | |- context [finish ?tid (run_sync ?N ?i ?t ?w)] =>
      sub_run N i t w; cbv beta iota delta [finish]; norm
  end.

Ltac side :=
  norm; cbn [wake_action wake_timer wake_response Z.add];
  repeat (progress (repeat rew_hyps; norm)); reflexivity.

(** Thread [tid] of world [W] under [wake]: woken, and run up to its next
    suspension, or left as it is. *)
Ltac wake_thread N wake tid W :=
  let H1 := fresh "H" in
  let H2 := fresh "H" in
  eassert (H1 : nth_error (threads W) tid =
                Some {| owner := _; status := Blocked _ _ _ |})
    by (norm; reflexivity);
  lazymatch type of H1 with
  | _ = Some {| owner := ?o; status := @Blocked ?X ?p ?since ?k |} =>
      eassert (H2 : wake X p since (is_aborted o W) = _) by side;
      lazymatch type of H2 with
      | _ = Some ?x =>
          rewrite (@step_thread_woken N wake tid W o X p since k x H1 H2);
          clear H1 H2; evaluate_finish
      | _ = None =>
          rewrite (@step_thread_asleep N wake tid W o X p since k H1 H2);
          clear H1 H2
      end
  end.

Ltac wake_threads :=
  repeat match goal with
  | |- context [step_thread ?N ?wake ?tid ?W] =>
      lazymatch W with
      | context [step_thread] => fail
      | _ =>
        first [ wake_thread N wake tid W
              | rewrite (@step_thread_over N wake tid W) by (norm; exact I) ]
      end
  end.

Ltac step_decision :=
  match goal with
  | |- loop ?T (?d :: ?l) ?w = _ =>
      rewrite (loop_cons T d l w);
      lazymatch d with
      | Fire ?a =>
          first [ erewrite (@fire_trigger T a _ w) by eassumption;
                  rewrite start_eq; norm; evaluate_finish
                | rewrite (@fire_other T a w)
                    by first [ reflexivity | assumption ] ];
          norm; unfold step_threads; cbn [fold_left];
          wake_threads
      | Advance ?dt =>
          rewrite (advance_eq T dt w);
          norm; unfold step_threads; cbn [fold_left];
          wake_threads
      | Respond ?tid ?r =>
          unfold decide at 1; wake_threads
      | SetStore ?s =>
          unfold decide at 1; norm
      end
  end.

Ltac steps := cbn [app]; repeat step_decision; rewrite loop_nil.

(** The world [w] of the context, a run of a schedule, as a record. *)
Ltac settle w :=
  let E := fresh "E" in
  eassert (E : w = _) by (unfold w; steps; reflexivity);
  clearbody w; subst w.

(** What is read of a world. *)
Ltac observe :=
  cbv beta iota zeta delta
    [phases phase events_of map filter fst snd Nat.eqb nth_error app length
     existsb negb andb orb pred
     is_dispatch is_network_call is_enqueue is_toast is_processed_image_write
     is_image_change is_pending_change
     store trace now next_req aborted threads owner status].

(** ** The reducers on a layer *)

Lemma find_layer_update lid f s :
  find_layer lid (update_controlAdapter lid f s) =
  option_map (fun l => {| id := id l; controlAdapter := f (controlAdapter l) |})
             (find_layer lid s).
Proof.
  unfold find_layer.
  induction s as [|l s IH]; cbn; [reflexivity|].
  destruct l as [ca|other]; cbn; [|exact IH].
  destruct (String.eqb (id ca) lid) eqn:E; cbn; rewrite E;
    [reflexivity|exact IH].
Qed.

(** Layer fields after the two final dispatches of a successful run. *)
Lemma reconciled_layer lid dto s l :
  find_layer lid s = Some l ->
  let s' := controlLayersReducer
              (controlLayersReducer s (caLayerProcessedImageChanged lid dto))
              (caLayerProcessorPendingBatchIdChanged lid None) in
  processedImage_of lid s' = Some dto /\ pendingBatchId_of lid s' = Some None.
Proof.
  intros Hl s'. subst s'.
  unfold processedImage_of, pendingBatchId_of, controlLayersReducer.
  rewrite !find_layer_update, Hl. split; reflexivity.
Qed.


(** The pending-batch event with [null] empties the pending identifier. *)
Lemma pending_cleared lid s l :
  find_layer lid s = Some l ->
  pendingBatchId_of lid
    (controlLayersReducer s (caLayerProcessorPendingBatchIdChanged lid None))
  = Some None.
Proof.
  intros Hl. unfold pendingBatchId_of, controlLayersReducer.
  rewrite find_layer_update, Hl. reflexivity.
Qed.

(** Clearing the processed image keeps the layer. *)
Lemma layer_survives_clear lid s l :
  find_layer lid s = Some l ->
  exists l',
    find_layer lid
      (controlLayersReducer s (caLayerProcessedImageChanged lid None))
    = Some l'.
Proof.
  intros Hl. unfold controlLayersReducer.
  rewrite find_layer_update, Hl. eexists. reflexivity.
Qed.

(** The pending-batch event records its identifier on the layer. *)
Lemma pending_recorded lid b s l :
  find_layer lid s = Some l ->
  pendingBatchId_of lid
    (controlLayersReducer s (caLayerProcessorPendingBatchIdChanged lid b))
  = Some b.
Proof.
  intros Hl. unfold pendingBatchId_of, controlLayersReducer.
  rewrite find_layer_update, Hl. reflexivity.
Qed.

(** * The listener, claim by claim *)

Section Claims.

Variable CA_PROCESSOR_DATA : string -> option ProcessorData.

Local Abbreviation run := (loop CA_PROCESSOR_DATA).

(** The three assertions of the [try] block throw, and nothing is done
    before they throw. *)
Lemma assertions_throw N i w lid node r d :
  (truthy (batch_id r) = false ->
   run_sync N i (on_enqueued lid node r) w
   = (Raised (AssertionError "Batch ID not returned from queue"), w)) /\
  (isImageOutput (result d) = false ->
   run_sync N i (on_invocation_complete lid (socketInvocationComplete d)) w
   = (Raised (AssertionError "Processor did not return an image output"), w)) /\
  run_sync N i (reconcile lid None) w
  = (Raised (AssertionError "Failed to fetch processor output's image DTO"), w).
Proof.
  repeat split.
  - intros H. unfold on_enqueued, assert. rewrite H. reflexivity.
  - intros H. unfold on_invocation_complete, assert. rewrite H. reflexivity.
Qed.

(** The cases of [compensates], by what [find_layer] gives in the layers
    the cancelled instance reads ([H3]). *)
Ltac compensation H3 :=
  unfold compensates;
  split; [reflexivity|];
  split;
    [ let p := fresh "p" in
      let Hp := fresh "Hp" in
      let Ht := fresh "Ht" in
      intros p Hp Ht; unfold pendingBatchId_of in Hp; rewrite H3 in Hp;
      cbn in Hp;
      first [ discriminate Hp
            | injection Hp as Hp; subst p;
              first [ congruence
                    | split;
                      [ eexists; reflexivity
                      | let failure := fresh "failure" in
                        intros failure;
                        destruct failure; unfold cancel_answer; cbn zeta;
                        match goal with
                        | |- nth_error (phases ?x) _ = _ =>
                            let y := fresh "y" in
                            set (y := x); settle y; reflexivity
                        end ] ] ]
    | let Hp := fresh "Hp" in
      intros Hp;
      first
        [ eexists; reflexivity
        | exfalso;
          match goal with
          | Hb : truthy (Some ?q) = true |- _ =>
              specialize (Hp q); unfold pendingBatchId_of in Hp;
              rewrite H3 in Hp; specialize (Hp eq_refl); congruence
          end ] ].

(** The effect up to its first [await]. *)
Ltac effect_prefix :=
  unfold effect, sync, await;
  cbn [bind run_sync exec_sync cancel_aware andb evaluate].

(** The effect dispatches nothing before its first [await]: its first
    stretch is the same under every middleware. *)
Lemma effect_prefix_hook N1 N2 lid i w :
  run_sync N1 i (effect CA_PROCESSOR_DATA lid) w
  = run_sync N2 i (effect CA_PROCESSOR_DATA lid) w.
Proof.
  effect_prefix.
  destruct (is_aborted i _); reflexivity.
Qed.






(** C9. When, after the quiet period, the state holds no control-adapter
    layer with the identifier of the trigger, the instance returns at once:
    its only events are the call of [cancelActiveListeners] and the trace
    log, it dispatches nothing, calls no endpoint, and the layers are as
    the wait left them. *)
Theorem C9_missing_layer_returns a lid s0 s1 dt :
  action_layerId a = Some lid ->
  DEBOUNCE_MS <= dt ->
  find_layer lid s1 = None ->
  let w := run [Fire a; SetStore s1; Advance dt] (boot s0) in
  phases w = [Finished] /\
  store w = s1 /\
  trace w = [(0%nat, EvCancelActiveListeners);
             (0%nat, EvLog Trace "Control Layer CA auto-process triggered")] /\
  existsb is_dispatch (events_of 0 w) = false /\
  existsb is_network_call (events_of 0 w) = false.
Proof.
  intros Ha Hdt Hf w.
  settle w.
  repeat split.
Qed.


(** C2. When the submission succeeds with a batch identifier, a completion
    event of that batch and node arrives with an image result, and the
    descriptor is fetched, the instance ends by dispatching the processed
    image with the fetched descriptor and then the pending batch identifier
    with [null]; on a layer that exists then, the processed image is the
    descriptor and the pending identifier is empty.  The layers at each
    resumption ([s1] to [s4]) are arbitrary. *)
Theorem C2_success_records_image
    a lid s0 s1 s2 s3 s4 dt layer node r d name iw ih dto :
  action_layerId a = Some lid ->
  DEBOUNCE_MS <= dt ->
  find_layer lid s1 = Some layer ->
  build_processor_node CA_PROCESSOR_DATA (image (controlAdapter layer))
      (processorConfig (controlAdapter layer)) = inl node ->
  truthy (batch_id r) = true ->
  is_completion_of (batch_id r) node (socketInvocationComplete d) = true ->
  result d = ImageOutput name iw ih ->
  let w :=
    run [Fire a; SetStore s1; Advance dt; SetStore s2;
         Respond 0 (EnqueueBatchOk r); SetStore s3;
         Fire (socketInvocationComplete d); SetStore s4] (boot s0) in
  let w' := run [Respond 0 (ImageDTOResult (Some dto))] w in
  (exists req,
      trace w' = trace w ++
        [(0%nat, EvLog Debug "ControlNet image processed");
         (0%nat, EvDispatch (caLayerProcessedImageChanged lid (Some dto)));
         (0%nat, EvDispatch (caLayerProcessorPendingBatchIdChanged lid None));
         (0%nat, EvReset req)]) /\
  nth_error (phases w') 0 = Some Finished /\
  store w' =
    controlLayersReducer
      (controlLayersReducer s4 (caLayerProcessedImageChanged lid (Some dto)))
      (caLayerProcessorPendingBatchIdChanged lid None) /\
  (forall l, find_layer lid s4 = Some l ->
     processedImage_of lid (store w') = Some (Some dto) /\
     pendingBatchId_of lid (store w') = Some None).
Proof.
  intros Ha Hdt Hf Hn Hb Hc Hr w w'.
  destruct layer as [lid' [img cfg pimg pend]]. cbn in Hn.
  destruct img as [img|], cfg as [cfg|], pend as [b0|];
    try destruct (truthy (Some b0)) eqn:Hb0;
    try (unfold build_processor_node in Hn; discriminate).
  all: settle w; settle w'; cbn.
  all: split; [eexists; reflexivity|].
  all: split; [reflexivity|]; split; [reflexivity|].
  all: intros l Hl; exact (reconciled_layer lid (Some dto) s4 Hl).
Qed.


(** C4. When the layer has a pending batch identifier [b0] (a non-empty
    string) at the end of the quiet period and the node is built, the
    cancellation request for [b0] is the first endpoint call of the
    instance and the submission of the new batch follows it.  When the
    cancellation request is answered, by a success or by any failure, the
    detached call ends normally after resetting the request and dispatching
    the pending batch identifier with [null], which empties it on the
    layer. *)
Theorem C4_cancels_pending_batch_first
    a lid s0 s1 dt layer node b0 failure :
  action_layerId a = Some lid ->
  DEBOUNCE_MS <= dt ->
  find_layer lid s1 = Some layer ->
  processorPendingBatchId (controlAdapter layer) = Some b0 ->
  truthy (Some b0) = true ->
  build_processor_node CA_PROCESSOR_DATA (image (controlAdapter layer))
      (processorConfig (controlAdapter layer)) = inl node ->
  let w := run [Fire a; SetStore s1; Advance dt] (boot s0) in
  let w' := run [Respond 1 (cancel_answer failure)] w in
  (exists pre,
     events_of 0 w = pre ++
       [EvInitiateCancelByBatchIds 0 [b0];
        EvLog Trace "Cancelling existing preprocessor batch";
        EvInitiateEnqueueBatch 1 (enqueue_batch_arg node) "enqueueBatch"] /\
     existsb is_network_call pre = false) /\
  phases w = [Submitting 1; Cancelling 0] /\
  phases w' = [Submitting 1; Finished] /\
  trace w' = trace w ++
    [(0%nat, EvReset 0);
     (0%nat, EvDispatch (caLayerProcessorPendingBatchIdChanged lid None))] /\
  pendingBatchId_of lid (store w') = Some None.
Proof.
  intros Ha Hdt Hf Hp Hb0 Hn w w'.
  destruct layer as [lid' [img cfg pimg pend]]. cbn in Hn, Hp. subst pend.
  destruct (layer_survives_clear lid s1 Hf) as [l' Hl'].
  destruct failure as [e|]; unfold cancel_answer in w';
  destruct img as [img|], cfg as [cfg|];
    try (unfold build_processor_node in Hn; discriminate).
  all: settle w; settle w'; cbn.
  all: split;
    [first
       [ exists [EvCancelActiveListeners;
                 EvLog Trace "Control Layer CA auto-process triggered"];
         split; reflexivity
       | exists [EvCancelActiveListeners;
                 EvLog Trace "Control Layer CA auto-process triggered";
                 EvDispatch (caLayerProcessedImageChanged lid None)];
         split; reflexivity ]|].
  all: split; [reflexivity|]; split; [reflexivity|]; split; [reflexivity|].
  all: first [ exact (pending_cleared lid _ Hf)
             | exact (pending_cleared lid _ Hl') ].
Qed.

(** C5. A submission answered without a batch identifier, a completion
    event whose result is not an image output, and a descriptor fetch that
    gives [null] each make an assertion of the [try] block throw before
    anything else is done.  In a run that is not cancelled the instance
    then logs the error, dispatches the error toast, resets the request and
    ends: it goes no further in the sequence and dispatches no processed
    image with a descriptor. *)
Theorem C5_contract_violations_fail_loudly
    a lid s0 s1 s2 s3 s4 dt layer node r_bad r d_bad d name iw ih :
  action_layerId a = Some lid ->
  DEBOUNCE_MS <= dt ->
  find_layer lid s1 = Some layer ->
  build_processor_node CA_PROCESSOR_DATA (image (controlAdapter layer))
      (processorConfig (controlAdapter layer)) = inl node ->
  truthy (batch_id r_bad) = false ->
  truthy (batch_id r) = true ->
  is_completion_of (batch_id r) node (socketInvocationComplete d_bad) = true ->
  isImageOutput (result d_bad) = false ->
  is_completion_of (batch_id r) node (socketInvocationComplete d) = true ->
  result d = ImageOutput name iw ih ->
  let failure :=
    [EvLog Error "queue.graphFailedToQueue";
     EvDispatch (addToast (i18n_t "queue.graphFailedToQueue") "error")] in
  let w := run [Fire a; SetStore s1; Advance dt; SetStore s2] (boot s0) in
  let w1 := run [Respond 0 (EnqueueBatchOk r_bad)] w in
  let w' := run [Respond 0 (EnqueueBatchOk r); SetStore s3] w in
  let w2 := run [Fire (socketInvocationComplete d_bad)] w' in
  let w'' := run [Fire (socketInvocationComplete d); SetStore s4] w' in
  let w3 := run [Respond 0 (ImageDTOResult None)] w'' in
  (forall N i x,
     run_sync N i (on_enqueued lid node r_bad) x
     = (Raised (AssertionError "Batch ID not returned from queue"), x) /\
     run_sync N i (on_invocation_complete lid (socketInvocationComplete d_bad))
              x
     = (Raised (AssertionError "Processor did not return an image output"), x)
     /\
     run_sync N i (reconcile lid None) x
     = (Raised (AssertionError
                  "Failed to fetch processor output's image DTO"), x)) /\
  (exists req, events_of 0 w1 = events_of 0 w ++ failure ++ [EvReset req]) /\
  (exists req, events_of 0 w2 = events_of 0 w' ++ failure ++ [EvReset req]) /\
  (exists req, events_of 0 w3 = events_of 0 w'' ++ failure ++ [EvReset req]) /\
  nth_error (phases w1) 0 = Some Finished /\
  nth_error (phases w2) 0 = Some Finished /\
  nth_error (phases w3) 0 = Some Finished /\
  existsb is_processed_image_write (events_of 0 w1) = false /\
  existsb is_processed_image_write (events_of 0 w2) = false /\
  existsb is_processed_image_write (events_of 0 w3) = false.
Proof.
  intros Ha Hdt Hf Hn Hrb Hr Hcb Hdb Hc Hd failure w w1 w' w2 w'' w3.
  split.
  { intros N i x.
    destruct (assertions_throw N i x lid node r_bad d_bad) as (A1 & A2 & A3).
    auto. }
  destruct layer as [lid' [img cfg pimg pend]]. cbn in Hn.
  destruct img as [img|], cfg as [cfg|], pend as [b0|];
    try destruct (truthy (Some b0)) eqn:Hb0;
    try (unfold build_processor_node in Hn; discriminate).
  all: settle w; settle w1; settle w'; settle w2; settle w''; settle w3.
  all: subst failure; cbn.
  all: repeat (split; [first [reflexivity | eexists; reflexivity]|]).
  all: reflexivity.
Qed.

(** C6. When a second trigger fires before the quiet period of the first
    is over, the first instance is cancelled in its wait: it ends by the
    rejection of [delay], and all it ever does is the call of
    [cancelActiveListeners] and the trace log, with no dispatch and no
    endpoint call; the layers are as the application left them.  The
    second instance, once its own quiet period is over, does what a lone
    trigger does on the same layers: the same events, the same layers
    after. *)
Theorem C6_second_trigger_supersedes a1 a2 lid1 lid2 s0 sA sB dt1 dt2 :
  action_layerId a1 = Some lid1 ->
  action_layerId a2 = Some lid2 ->
  0 <= dt1 < DEBOUNCE_MS ->
  DEBOUNCE_MS <= dt2 ->
  let w := run [Fire a1; SetStore sA; Advance dt1; Fire a2] (boot s0) in
  let w' := run [SetStore sB; Advance dt2] w in
  let lone := run [Fire a2; SetStore sB; Advance dt2] (boot s0) in
  phases w = [Cancelled; Debouncing] /\
  store w = sA /\
  events_of 0 w = [EvCancelActiveListeners;
                   EvLog Trace "Control Layer CA auto-process triggered"] /\
  events_of 0 w' = events_of 0 w /\
  nth_error (phases w') 0 = Some Cancelled /\
  existsb is_dispatch (events_of 0 w') = false /\
  existsb is_network_call (events_of 0 w') = false /\
  events_of 1 w' = events_of 0 lone /\
  store w' = store lone.
Proof.
  intros Ha1 Ha2 Hdt1 Hdt2 w w' lone.
  settle w.
  destruct (find_layer lid2 sB) as [[lid' [img cfg pimg pend]]|] eqn:Hf.
  2: { settle w'; settle lone. repeat split. }
  assert (Hnone : forall i, build_processor_node CA_PROCESSOR_DATA i None
                            = inr TypeError) by reflexivity.
  destruct cfg as [cfg|];
    [destruct (build_processor_node CA_PROCESSOR_DATA img (Some cfg))
       as [node|err] eqn:Hn
    |pose proof (Hnone img) as Hn];
  destruct img as [img|], pend as [b0|];
    try destruct (truthy (Some b0)) eqn:Hb0.
  all: settle w'; settle lone.
  all: repeat split.
Qed.

(** C7. An instance cancelled by a newer trigger while it awaits the
    completion event, or while it awaits the answer to its submission,
    reads the layers as they are when it notices (not as they were at
    submission), and, when the layer has a pending batch identifier there,
    requests the cancellation of that batch; the answer to that request,
    failure included, ends the detached call normally.  The instance logs,
    resets its request and ends without throwing.  When the submission is
    answered with a batch identifier after the cancellation, the instance
    first records that identifier, so the batch it cancels is that one. *)
Theorem C7_cancellation_reads_current_pending_batch
    a a2 lid lid2 s0 s1 s2 s3 dt layer node r e :
  action_layerId a = Some lid ->
  action_layerId a2 = Some lid2 ->
  DEBOUNCE_MS <= dt ->
  find_layer lid s1 = Some layer ->
  build_processor_node CA_PROCESSOR_DATA (image (controlAdapter layer))
      (processorConfig (controlAdapter layer)) = inl node ->
  truthy (batch_id r) = true ->
  let w :=
    run [Fire a; SetStore s1; Advance dt; SetStore s2;
         Respond 0 (EnqueueBatchOk r); SetStore s3] (boot s0) in
  let v :=
    run [Fire a; SetStore s1; Advance dt; SetStore s2;
         Fire a2; SetStore s3] (boot s0) in
  let recorded := caLayerProcessorPendingBatchIdChanged lid (batch_id r) in
  nth_error (phases w) 0 = Some AwaitingCompletion /\
  (exists req, nth_error (phases v) 0 = Some (Submitting req)) /\
  compensates CA_PROCESSOR_DATA lid s3 [] w (run [Fire a2] w) /\
  compensates CA_PROCESSOR_DATA lid s3 [] v (run [Respond 0 (Rejected e)] v) /\
  compensates CA_PROCESSOR_DATA lid (controlLayersReducer s3 recorded)
    [EvDispatch recorded; EvLog Debug "queue.graphQueued"]
    v (run [Respond 0 (EnqueueBatchOk r)] v).
Proof.
  intros Ha Ha2 Hdt Hf Hn Hr w v recorded.
  destruct layer as [lid' [img cfg pimg pend]]. cbn in Hn.
  destruct img as [img|], cfg as [cfg|], pend as [b0|];
    try destruct (truthy (Some b0)) eqn:Hb0;
    try (unfold build_processor_node in Hn; discriminate).
  all: settle w; settle v.
  all: split; [reflexivity|]; split; [eexists; reflexivity|].
  all: split; [|split].
  all: match goal with
       | |- compensates _ _ ?s _ _ ?x =>
           let y := fresh "y" in
           set (y := x);
           destruct (find_layer lid s)
             as [[lid3 [img3 cfg3 pimg3 [p3|]]]|] eqn:H3;
           try destruct (truthy (Some p3)) eqn:Hp3;
           subst recorded; settle y; compensation H3
       end.
Qed.

(** C10. After a successful submission has recorded the new batch
    identifier on the layer, a completion event without an image result, or
    a descriptor fetch that gives [null], ends the instance through the
    error toast: it dispatches no pending-batch change and leaves the
    layers as they were, so that, nothing else having touched the layer,
    its pending batch identifier is still the one recorded. *)
Theorem C10_failure_keeps_pending_batch
    a lid s0 s1 s2 dt layer l2 node r d_bad d name iw ih :
  action_layerId a = Some lid ->
  DEBOUNCE_MS <= dt ->
  find_layer lid s1 = Some layer ->
  build_processor_node CA_PROCESSOR_DATA (image (controlAdapter layer))
      (processorConfig (controlAdapter layer)) = inl node ->
  find_layer lid s2 = Some l2 ->
  truthy (batch_id r) = true ->
  is_completion_of (batch_id r) node (socketInvocationComplete d_bad) = true ->
  isImageOutput (result d_bad) = false ->
  is_completion_of (batch_id r) node (socketInvocationComplete d) = true ->
  result d = ImageOutput name iw ih ->
  let failure :=
    [EvLog Error "queue.graphFailedToQueue";
     EvDispatch (addToast (i18n_t "queue.graphFailedToQueue") "error")] in
  let w :=
    run [Fire a; SetStore s1; Advance dt; SetStore s2;
         Respond 0 (EnqueueBatchOk r)] (boot s0) in
  let w1 := run [Fire (socketInvocationComplete d_bad)] w in
  let w' := run [Fire (socketInvocationComplete d)] w in
  let w2 := run [Respond 0 (ImageDTOResult None)] w' in
  pendingBatchId_of lid (store w) = Some (batch_id r) /\
  (exists req, events_of 0 w1 = events_of 0 w ++ failure ++ [EvReset req]) /\
  (exists req, events_of 0 w2 = events_of 0 w' ++ failure ++ [EvReset req]) /\
  store w1 = store w /\
  store w2 = store w /\
  pendingBatchId_of lid (store w1) = Some (batch_id r) /\
  pendingBatchId_of lid (store w2) = Some (batch_id r).
Proof.
  intros Ha Hdt Hf Hn Hl2 Hr Hcb Hdb Hc Hd failure w w1 w' w2.
  pose proof (pending_recorded lid (batch_id r) s2 Hl2) as Hp.
  destruct layer as [lid' [img cfg pimg pend]]. cbn in Hn.
  destruct img as [img|], cfg as [cfg|], pend as [b0|];
    try destruct (truthy (Some b0)) eqn:Hb0;
    try (unfold build_processor_node in Hn; discriminate).
  all: settle w; settle w1; settle w'; settle w2.
  all: subst failure; cbn.
  all: split; [exact Hp|].
  all: repeat (split; [first [reflexivity | eexists; reflexivity | exact Hp]|]).
  all: exact Hp.
Qed.

End Claims.

(** ** The claims on the sample data

    Layer [L1] has image [I1] and a canny configuration; the batch is
    [B1], the node [N1], the processed image [out.png]. *)

Lemma C9_missing_layer_returns_witness :
  phases (loop Sample.table
            [Fire Sample.edit; SetStore []; Advance 300]
            (boot [ControlAdapterLayer Sample.L1]))
  = [Finished].
Proof.
  refine (proj1 (@C9_missing_layer_returns Sample.table Sample.edit "L1"
                   [ControlAdapterLayer Sample.L1] [] 300 _ _ _)).
  - reflexivity.
  - unfold DEBOUNCE_MS; lia.
  - reflexivity.
Defined.

Lemma C2_success_records_image_witness :
  let s := [ControlAdapterLayer Sample.L1] in
  let r := {| batch_id := Some "B1" |} in
  let done := Sample.completion (ImageOutput "out.png" 512 512) in
  let w :=
    loop Sample.table
      [Fire Sample.edit; SetStore s; Advance 300; SetStore s;
       Respond 0 (EnqueueBatchOk r); SetStore s; Fire done; SetStore s]
      (boot s) in
  let w' := loop Sample.table [Respond 0 (ImageDTOResult (Some Sample.out))] w in
  processedImage_of "L1" (store w') = Some (Some Sample.out) /\
  pendingBatchId_of "L1" (store w') = Some None.
Proof.
  intros s r done w w'.
  assert (H : DEBOUNCE_MS <= 300) by (unfold DEBOUNCE_MS; lia).
  exact (proj2 (proj2 (proj2
    (@C2_success_records_image Sample.table Sample.edit "L1" s s s s s 300
       Sample.L1 Sample.N1 r
       {| queue_batch_id := "B1"; source_node_id := "N1";
          result := ImageOutput "out.png" 512 512 |}
       "out.png" 512 512 Sample.out
       eq_refl H eq_refl eq_refl eq_refl eq_refl eq_refl)))
    Sample.L1 eq_refl).
Defined.


Lemma C4_cancels_pending_batch_first_witness :
  let s :=
    [ControlAdapterLayer
       (Sample.layer (Some Sample.I1) (Some Sample.config) (Some "B0"))] in
  let w := loop Sample.table [Fire Sample.edit; SetStore s; Advance 300]
                (boot s) in
  phases w = [Submitting 1; Cancelling 0] /\
  pendingBatchId_of "L1"
    (store (loop Sample.table
              [Respond 1 (cancel_answer (Some (FetchBaseQueryError 404)))] w))
  = Some None.
Proof.
  intros s w.
  assert (H : DEBOUNCE_MS <= 300) by (unfold DEBOUNCE_MS; lia).
  pose proof
    (@C4_cancels_pending_batch_first Sample.table Sample.edit "L1" s s 300
       (Sample.layer (Some Sample.I1) (Some Sample.config) (Some "B0"))
       Sample.N1 "B0" (Some (FetchBaseQueryError 404))
       eq_refl H eq_refl eq_refl eq_refl eq_refl) as C.
  exact (conj (proj1 (proj2 C)) (proj2 (proj2 (proj2 (proj2 C))))).
Defined.

Lemma C5_contract_violations_fail_loudly_witness :
  let s := [ControlAdapterLayer Sample.L1] in
  let w :=
    loop Sample.table [Fire Sample.edit; SetStore s; Advance 300; SetStore s]
         (boot s) in
  let w1 :=
    loop Sample.table [Respond 0 (EnqueueBatchOk {| batch_id := None |})] w in
  nth_error (phases w1) 0 = Some Finished /\
  existsb is_processed_image_write (events_of 0 w1) = false.
Proof.
  intros s w w1.
  assert (H : DEBOUNCE_MS <= 300) by (unfold DEBOUNCE_MS; lia).
  pose proof
    (@C5_contract_violations_fail_loudly Sample.table Sample.edit "L1"
       s s s s s 300 Sample.L1 Sample.N1
       {| batch_id := None |} {| batch_id := Some "B1" |}
       {| queue_batch_id := "B1"; source_node_id := "N1";
          result := OtherOutput "string_output" |}
       {| queue_batch_id := "B1"; source_node_id := "N1";
          result := ImageOutput "out.png" 512 512 |}
       "out.png" 512 512
       eq_refl H eq_refl eq_refl eq_refl eq_refl eq_refl eq_refl eq_refl
       eq_refl) as C.
  exact (conj (proj1 (proj2 (proj2 (proj2 (proj2 C)))))
              (proj1 (proj2 (proj2 (proj2 (proj2 (proj2 (proj2 (proj2 C))))))))).
Defined.

Lemma C6_second_trigger_supersedes_witness :
  let s := [ControlAdapterLayer Sample.L1] in
  let again := caLayerProcessorConfigChanged "L1" (Some Sample.config) in
  let w := loop Sample.table [Fire Sample.edit; SetStore s; Advance 299;
                              Fire again] (boot s) in
  phases w = [Cancelled; Debouncing] /\
  events_of 0 (loop Sample.table [SetStore s; Advance 300] w)
  = events_of 0 w.
Proof.
  intros s again w.
  assert (H1 : 0 <= 299 < DEBOUNCE_MS) by (unfold DEBOUNCE_MS; lia).
  assert (H2 : DEBOUNCE_MS <= 300) by (unfold DEBOUNCE_MS; lia).
  pose proof
    (@C6_second_trigger_supersedes Sample.table Sample.edit again "L1" "L1"
       s s s 299 300 eq_refl eq_refl H1 H2) as C.
  exact (conj (proj1 C) (proj1 (proj2 (proj2 (proj2 C))))).
Defined.

Lemma C7_cancellation_reads_current_pending_batch_witness :
  let s := [ControlAdapterLayer Sample.L1] in
  let s3 :=
    [ControlAdapterLayer
       (Sample.layer (Some Sample.I1) (Some Sample.config) (Some "B2"))] in
  let w :=
    loop Sample.table
      [Fire Sample.edit; SetStore s; Advance 300; SetStore s;
       Respond 0 (EnqueueBatchOk {| batch_id := Some "B1" |}); SetStore s3]
      (boot s) in
  exists req,
    events_of 0 (loop Sample.table [Fire Sample.edit] w)
    = events_of 0 w ++ [] ++
        [EvInitiateCancelByBatchIds (next_req w) ["B2"];
         EvLog Trace "Cancelling existing preprocessor batch";
         EvLog Trace "Control Adapter preprocessor cancelled";
         EvReset req].
Proof.
  intros s s3 w.
  assert (H : DEBOUNCE_MS <= 300) by (unfold DEBOUNCE_MS; lia).
  pose proof
    (@C7_cancellation_reads_current_pending_batch Sample.table
       Sample.edit Sample.edit "L1" "L1" s s s s3 300 Sample.L1 Sample.N1
       {| batch_id := Some "B1" |} TypeError
       eq_refl eq_refl H eq_refl eq_refl eq_refl) as C.
  exact (proj1 (proj1 (proj2 (proj1 (proj2 (proj2 C)))) "B2"
                  eq_refl eq_refl)).
Defined.

Lemma C10_failure_keeps_pending_batch_witness :
  let s := [ControlAdapterLayer Sample.L1] in
  let w :=
    loop Sample.table
      [Fire Sample.edit; SetStore s; Advance 300; SetStore s;
       Respond 0 (EnqueueBatchOk {| batch_id := Some "B1" |})] (boot s) in
  pendingBatchId_of "L1"
    (store (loop Sample.table
              [Fire (Sample.completion (OtherOutput "string_output"))] w))
  = Some (Some "B1").
Proof.
  intros s w.
  assert (H : DEBOUNCE_MS <= 300) by (unfold DEBOUNCE_MS; lia).
  pose proof
    (@C10_failure_keeps_pending_batch Sample.table Sample.edit "L1"
       s s s 300 Sample.L1 Sample.L1 Sample.N1
       {| batch_id := Some "B1" |}
       {| queue_batch_id := "B1"; source_node_id := "N1";
          result := OtherOutput "string_output" |}
       {| queue_batch_id := "B1"; source_node_id := "N1";
          result := ImageOutput "out.png" 512 512 |}
       "out.png" 512 512
       eq_refl H eq_refl eq_refl eq_refl eq_refl eq_refl eq_refl eq_refl
       eq_refl) as C.
  exact (proj1 (proj2 (proj2 (proj2 (proj2 (proj2 C)))))).
Defined.

(** C1. On a layer whose image is [null], or whose configuration is
    [null], the instance dispatches the processed image with [null] and
    does not return: it goes on to cancel the pending batch [B0] and to
    build the node.  With a builder that accepts a [null] image it submits
    a batch for that node; with a builder that reads the name of the image,
    and with a [null] configuration, it ends by a [TypeError] thrown
    outside the [try] block, the cancellation request being out already. *)
Theorem C1_missing_input_does_not_stop :
  let cleared := caLayerImageChanged "L1" None in
  let no_image :=
    [ControlAdapterLayer (Sample.layer None (Some Sample.config) (Some "B0"))]
  in
  let no_config :=
    [ControlAdapterLayer (Sample.layer (Some Sample.I1) None (Some "B0"))] in
  let schedule s := [Fire cleared; SetStore s; Advance 300] in
  let w1 := loop Sample.table (schedule no_image) (boot no_image) in
  let w2 := loop Sample.strict_table (schedule no_image) (boot no_image) in
  let w3 := loop Sample.table (schedule no_config) (boot no_config) in
  let before :=
    [EvCancelActiveListeners;
     EvLog Trace "Control Layer CA auto-process triggered";
     EvDispatch (caLayerProcessedImageChanged "L1" None);
     EvInitiateCancelByBatchIds 0 ["B0"];
     EvLog Trace "Cancelling existing preprocessor batch"] in
  events_of 0 w1 =
    before ++
    [EvInitiateEnqueueBatch 1
       (enqueue_batch_arg
          {| node_id := "N1"; node_type := "canny_image_processor";
             node_image := None; is_intermediate := false |})
       "enqueueBatch"] /\
  phases w1 = [Submitting 1; Cancelling 0] /\
  events_of 0 w2 = before /\
  phases w2 = [Crashed TypeError; Cancelling 0] /\
  events_of 0 w3 = before /\
  phases w3 = [Crashed TypeError; Cancelling 0].
Proof. vm_compute. repeat split. Qed.


(** * The appInfo endpoints, claim by claim *)

(** C8, as stated, fails: of the four endpoints of the invocation cache,
    the status endpoint is a query; it invalidates nothing, and the
    mutations are three. *)
Lemma C8_status_is_a_query :
  ~ (forall e, In e AppInfo.appInfoApi ->
       AppInfo.is_cache_control e = true ->
       AppInfo.is_mutation e = true /\
       AppInfo.has_tag AppInfo.InvocationCacheStatus
                       (AppInfo.invalidatesTags e) = true).
Proof.
  intros H.
  destruct (H AppInfo.getInvocationCacheStatus) as [Hm _].
  - cbn. tauto.
  - reflexivity.
  - discriminate Hm.
Qed.

(** C8, amended.  Every query of [appInfoApi] provides [FetchOnReconnect];
    the mutations are the three that clear, enable and disable the
    invocation cache, and each invalidates [InvocationCacheStatus], the
    tag the status query, and no other endpoint, provides. *)
Theorem C8_appInfo_tags :
  forallb (fun e => implb (AppInfo.is_query e)
                      (AppInfo.has_tag AppInfo.FetchOnReconnect
                                       (AppInfo.providesTags e)))
          AppInfo.appInfoApi = true /\
  filter AppInfo.is_mutation AppInfo.appInfoApi
  = [AppInfo.clearInvocationCache; AppInfo.enableInvocationCache;
     AppInfo.disableInvocationCache] /\
  forallb (fun e => implb (AppInfo.is_mutation e)
                      (AppInfo.has_tag AppInfo.InvocationCacheStatus
                                       (AppInfo.invalidatesTags e)))
          AppInfo.appInfoApi = true /\
  filter (fun e => AppInfo.has_tag AppInfo.InvocationCacheStatus
                                   (AppInfo.providesTags e))
         AppInfo.appInfoApi
  = [AppInfo.getInvocationCacheStatus].
Proof. repeat split. Qed.

(** * Beyond the claims *)

Section Beyond.

Variable CA_PROCESSOR_DATA : string -> option ProcessorData.

Local Abbreviation run := (loop CA_PROCESSOR_DATA).

(** [cancelProcessorBatch] issues the request, logs and suspends on the
    answer; whatever the answer, and whatever the world has become, it then
    resets the request, dispatches the pending batch identifier with
    [null] and returns: it never throws. *)
Theorem cancelProcessorBatch_never_throws N i w lid b :
  exists k,
    run_sync N i (cancelProcessorBatch lid b) w
    = (Suspended (PUnwrapCancelByBatchIds (next_req w)) k,
       record_event i (EvLog Trace "Cancelling existing preprocessor batch")
         (record_event i (EvInitiateCancelByBatchIds (next_req w) [b])
                       (fresh_req w))) /\
    forall (answer : unit + JsError) w',
      run_sync N i (k answer) w'
      = (Returned tt,
         snd (exec_sync N i
                (OpDispatch (caLayerProcessorPendingBatchIdChanged lid None))
                (snd (exec_sync N i (OpReset (next_req w)) w')))).
Proof.
  eexists. split.
  - reflexivity.
  - intros [[]|e] w'; reflexivity.
Qed.

(** An instance dispatches nothing before its first [await], so an
    instance started inside a [dispatch] starts no other: the middleware
    with one level of nesting is the middleware with any number of
    levels. *)
Theorem nesting_is_bounded n a w :
  notifyListeners CA_PROCESSOR_DATA (S n) a w
  = notifyListeners CA_PROCESSOR_DATA 1 a w.
Proof.
  cbn [notifyListeners]. unfold listener.
  destruct (matcher a); [|reflexivity].
  destruct (action_layerId a) as [lid|]; [|reflexivity].
  cbn [option_map]. unfold start.
  rewrite (@effect_prefix_hook CA_PROCESSOR_DATA
             (notifyListeners CA_PROCESSOR_DATA n) (fun _ w0 => w0)).
  reflexivity.
Qed.

(** The listener starts an instance for the four triggers, the image
    change, the change of processor configuration, the change of model and
    the recall of a layer, and for no other action.  The instance works on
    [payload.layerId], and on [payload.id] for a recalled layer. *)
Theorem listener_runs_for_matched_only :
  (forall lid x, listener CA_PROCESSOR_DATA (caLayerImageChanged lid x)
                 = Some (effect CA_PROCESSOR_DATA lid)) /\
  (forall lid x, listener CA_PROCESSOR_DATA
                          (caLayerProcessorConfigChanged lid x)
                 = Some (effect CA_PROCESSOR_DATA lid)) /\
  (forall lid x, listener CA_PROCESSOR_DATA (caLayerModelChanged lid x)
                 = Some (effect CA_PROCESSOR_DATA lid)) /\
  (forall l, listener CA_PROCESSOR_DATA (caLayerRecalled l)
             = Some (effect CA_PROCESSOR_DATA (id l))) /\
  (forall lid x, listener CA_PROCESSOR_DATA
                          (caLayerProcessedImageChanged lid x) = None) /\
  (forall lid x, listener CA_PROCESSOR_DATA
                          (caLayerProcessorPendingBatchIdChanged lid x)
                 = None) /\
  (forall title st, listener CA_PROCESSOR_DATA (addToast title st) = None) /\
  (forall d, listener CA_PROCESSOR_DATA (socketInvocationComplete d) = None) /\
  (forall ty, listener CA_PROCESSOR_DATA (otherAction ty) = None) /\
  (forall a, matcher a = false <-> listener CA_PROCESSOR_DATA a = None) /\
  (forall a,
     matcher a = true <->
     exists lid,
       listener CA_PROCESSOR_DATA a = Some (effect CA_PROCESSOR_DATA lid) /\
       action_layerId a = Some lid).
Proof.
  repeat (split; [reflexivity|]).
  split; intros a.
  - destruct a; cbn; split; intros H; try reflexivity; discriminate H.
  - destruct a; cbn; split; intros H;
      try discriminate H; try reflexivity;
      try (eexists; split; reflexivity);
      destruct H as [lid [H _]]; discriminate H.
Qed.

(** The [catch] clause under a signal that is not aborted: it logs the
    error, dispatches the image change with [null] for an access-denied
    response and the error toast for anything else, and returns. *)
Theorem catch_clause_not_aborted N i w lid e :
  is_aborted i w = false ->
  run_sync N i (on_error lid e) w
  = (Returned tt,
     snd (exec_sync N i
            (OpDispatch
               (if is_forbidden_response e
                then caLayerImageChanged lid None
                else addToast (i18n_t "queue.graphFailedToQueue") "error"))
            (snd (exec_sync N i (OpLog Error "queue.graphFailedToQueue")
                            w)))).
Proof.
  intros H. unfold on_error. cbn. rewrite H.
  destruct (is_forbidden_response e); reflexivity.
Qed.

(** The access-denied test accepts exactly the thrown objects that have a
    [data] key and whose [status] is the number 403. *)
Theorem is_forbidden_response_iff e :
  is_forbidden_response e = true <->
  exists fields,
    e = ThrownObject fields /\
    (exists v, lookup_field "data" fields = Some v) /\
    lookup_field "status" fields = Some (VNum 403).
Proof.
  unfold is_forbidden_response, instanceof_Object, key_in, status_is_403.
  split.
  - destruct e as [|m| |fields|v]; cbn; try discriminate.
    destruct (lookup_field "data" fields) as [v|] eqn:Hd; cbn;
      [|discriminate].
    destruct (lookup_field "status" fields) as [[n|s|]|] eqn:Hs; cbn;
      try discriminate.
    intros H. apply Z.eqb_eq in H. subst n.
    exists fields. split; [reflexivity|]. split; [exists v; exact Hd|exact Hs].
  - intros (fields & -> & (v & Hd) & Hs). rewrite Hd, Hs. reflexivity.
Qed.

(** When the node cannot be built (the configuration is [null], the kind
    has no entry in the table, or the builder throws), the error is thrown
    outside the [try] block: the instance fails with it, after the call of
    [cancelActiveListeners], the log, the clearing dispatch if any and the
    cancellation of a pending batch if any; it submits nothing, dispatches
    no toast and resets no request. *)
Theorem build_failure_is_not_caught a lid s0 s1 dt layer e :
  action_layerId a = Some lid ->
  DEBOUNCE_MS <= dt ->
  find_layer lid s1 = Some layer ->
  build_processor_node CA_PROCESSOR_DATA (image (controlAdapter layer))
      (processorConfig (controlAdapter layer)) = inr e ->
  let w := run [Fire a; SetStore s1; Advance dt] (boot s0) in
  let before :=
    [EvCancelActiveListeners;
     EvLog Trace "Control Layer CA auto-process triggered"]
    ++ clears layer lid in
  option_map status (nth_error (threads w) 0) = Some (Failed e) /\
  (forall b,
     processorPendingBatchId (controlAdapter layer) = Some b ->
     truthy (Some b) = true ->
     events_of 0 w = before ++
       [EvInitiateCancelByBatchIds 0 [b];
        EvLog Trace "Cancelling existing preprocessor batch"]) /\
  (truthy (processorPendingBatchId (controlAdapter layer)) = false ->
   events_of 0 w = before) /\
  existsb is_enqueue (events_of 0 w) = false /\
  existsb is_toast (events_of 0 w) = false.
Proof.
  intros Ha Hdt Hf Hn w before.
  destruct layer as [lid' [img cfg pimg pend]]. cbn in Hn.
  destruct img as [img|], cfg as [cfg|], pend as [b0|];
    try destruct (truthy (Some b0)) eqn:Hb0.
  all: settle w.
  all: subst before; unfold clears; cbn [image processorConfig controlAdapter
                                          processorPendingBatchId].
  all: split; [reflexivity|].
  all: split;
    [intros b Hb Ht; try discriminate Hb;
     injection Hb as Hb; subst b; first [reflexivity | congruence]|].
  all: split; [intros Ht; first [reflexivity | congruence]|].
  all: split; reflexivity.
Qed.

(** On a layer without image, a builder that returns a node for the
    [null] image has its node submitted: after clearing the processed
    image the instance goes on to the submission. *)
Theorem missing_image_still_submits a lid s0 s1 dt layer cfg node :
  action_layerId a = Some lid ->
  DEBOUNCE_MS <= dt ->
  find_layer lid s1 = Some layer ->
  image (controlAdapter layer) = None ->
  processorConfig (controlAdapter layer) = Some cfg ->
  build_processor_node CA_PROCESSOR_DATA None (Some cfg) = inl node ->
  let w := run [Fire a; SetStore s1; Advance dt] (boot s0) in
  (exists req, nth_error (phases w) 0 = Some (Submitting req)) /\
  (exists mid req,
     events_of 0 w =
       [EvCancelActiveListeners;
        EvLog Trace "Control Layer CA auto-process triggered";
        EvDispatch (caLayerProcessedImageChanged lid None)]
       ++ mid ++
       [EvInitiateEnqueueBatch req (enqueue_batch_arg node) "enqueueBatch"]
     /\ existsb is_dispatch mid = false) /\
  store w = controlLayersReducer s1 (caLayerProcessedImageChanged lid None).
Proof.
  intros Ha Hdt Hf Hi Hc Hn w.
  destruct layer as [lid' [img cfg' pimg pend]]. cbn in Hi, Hc.
  subst img cfg'.
  destruct pend as [b0|]; try destruct (truthy (Some b0)) eqn:Hb0.
  all: settle w.
  all: split; [eexists; reflexivity|].
  all: split; [|reflexivity].
  all: first
    [ exists [], 0%nat; split; reflexivity
    | exists [EvInitiateCancelByBatchIds 0 [b0];
              EvLog Trace "Cancelling existing preprocessor batch"], 1%nat;
      split; reflexivity ].
Qed.

(** A newer trigger that fires while the instance awaits the descriptor
    of the processed image does not stop it: [getImageDTO] is awaited as
    it is, nothing after it looks at the signal, and the instance records
    the processed image and empties the pending batch identifier as in a
    run that was not cancelled. *)
Theorem abort_during_fetch_still_records
    a a2 lid lid2 s0 s1 s2 s3 s4 s5 dt layer node r d name iw ih dto :
  action_layerId a = Some lid ->
  action_layerId a2 = Some lid2 ->
  DEBOUNCE_MS <= dt ->
  find_layer lid s1 = Some layer ->
  build_processor_node CA_PROCESSOR_DATA (image (controlAdapter layer))
      (processorConfig (controlAdapter layer)) = inl node ->
  truthy (batch_id r) = true ->
  is_completion_of (batch_id r) node (socketInvocationComplete d) = true ->
  result d = ImageOutput name iw ih ->
  let w :=
    run [Fire a; SetStore s1; Advance dt; SetStore s2;
         Respond 0 (EnqueueBatchOk r); SetStore s3;
         Fire (socketInvocationComplete d); SetStore s4] (boot s0) in
  let v := run [Fire a2; SetStore s5] w in
  let w' := run [Respond 0 (ImageDTOResult (Some dto))] v in
  (exists req, nth_error (phases w) 0 = Some (FetchingImage req)) /\
  is_aborted 0 v = true /\
  events_of 0 v = events_of 0 w /\
  (exists req,
     events_of 0 w' = events_of 0 w ++
       [EvLog Debug "ControlNet image processed";
        EvDispatch (caLayerProcessedImageChanged lid (Some dto));
        EvDispatch (caLayerProcessorPendingBatchIdChanged lid None);
        EvReset req]) /\
  nth_error (phases w') 0 = Some Finished /\
  store w' =
    controlLayersReducer
      (controlLayersReducer s5 (caLayerProcessedImageChanged lid (Some dto)))
      (caLayerProcessorPendingBatchIdChanged lid None).
Proof.
  intros Ha Ha2 Hdt Hf Hn Hb Hc Hr w v w'.
  destruct layer as [lid' [img cfg pimg pend]]. cbn in Hn.
  destruct img as [img|], cfg as [cfg|], pend as [b0|];
    try destruct (truthy (Some b0)) eqn:Hb0;
    try (unfold build_processor_node in Hn; discriminate).
  all: settle w; settle v; settle w'.
  all: split; [eexists; reflexivity|].
  all: split; [reflexivity|]; split; [reflexivity|].
  all: split; [eexists; reflexivity|].
  all: split; reflexivity.
Qed.

(** While the instance awaits the completion event, an action that is
    neither a trigger nor the completion of its batch and node changes
    nothing, and no amount of time resumes it: the wait has no timeout. *)
Theorem completion_wait_is_unbounded
    a lid s0 s1 s2 dt layer node r other dt' :
  action_layerId a = Some lid ->
  DEBOUNCE_MS <= dt ->
  find_layer lid s1 = Some layer ->
  build_processor_node CA_PROCESSOR_DATA (image (controlAdapter layer))
      (processorConfig (controlAdapter layer)) = inl node ->
  truthy (batch_id r) = true ->
  matcher other = false ->
  is_completion_of (batch_id r) node other = false ->
  let w :=
    run [Fire a; SetStore s1; Advance dt; SetStore s2;
         Respond 0 (EnqueueBatchOk r)] (boot s0) in
  nth_error (phases w) 0 = Some AwaitingCompletion /\
  run [Fire other] w = w /\
  run [Advance dt'] w = tick dt' w.
Proof.
  intros Ha Hdt Hf Hn Hb Hm Hc w.
  destruct layer as [lid' [img cfg pimg pend]]. cbn in Hn.
  destruct img as [img|], cfg as [cfg|], pend as [b0|];
    try destruct (truthy (Some b0)) eqn:Hb0;
    try (unfold build_processor_node in Hn; discriminate).
  all: settle w.
  all: split; [reflexivity|].
  all: split;
    match goal with
    | |- ?x = _ => let y := fresh "y" in set (y := x); settle y; reflexivity
    end.
Qed.

(** The cancellation of the prior batch is not awaited.  When its answer
    comes after the new batch identifier has been recorded, the detached
    call empties the pending batch identifier of the layer while the new
    batch is in flight; an instance cancelled after that finds no pending
    batch and requests no cancellation. *)
Theorem late_cancel_answer_clears_new_batch
    a a2 lid lid2 s0 s1 dt layer node b0 r failure :
  action_layerId a = Some lid ->
  action_layerId a2 = Some lid2 ->
  DEBOUNCE_MS <= dt ->
  find_layer lid s1 = Some layer ->
  processorPendingBatchId (controlAdapter layer) = Some b0 ->
  truthy (Some b0) = true ->
  build_processor_node CA_PROCESSOR_DATA (image (controlAdapter layer))
      (processorConfig (controlAdapter layer)) = inl node ->
  truthy (batch_id r) = true ->
  let w :=
    run [Fire a; SetStore s1; Advance dt; Respond 0 (EnqueueBatchOk r)]
        (boot s0) in
  let w' := run [Respond 1 (cancel_answer failure)] w in
  let w'' := run [Fire a2] w' in
  pendingBatchId_of lid (store w) = Some (batch_id r) /\
  phases w' = [AwaitingCompletion; Finished] /\
  pendingBatchId_of lid (store w') = Some None /\
  events_of 0 w'' = events_of 0 w' ++
    [EvLog Trace "Control Adapter preprocessor cancelled"; EvReset 1].
Proof.
  intros Ha Ha2 Hdt Hf Hp Hb0 Hn Hr w w' w''.
  destruct layer as [lid' [img cfg pimg pend]]. cbn in Hn, Hp. subst pend.
  destruct (layer_survives_clear lid s1 Hf) as [l' Hl'].
  destruct failure as [e|]; unfold cancel_answer in w';
  destruct img as [img|], cfg as [cfg|];
    try (unfold build_processor_node in Hn; discriminate).
  all: settle w; settle w'.
  all: lazymatch goal with
       | w'' := run _ {| store := ?s; trace := _; now := _; next_req := _;
                         aborted := _; threads := _ |} |- _ =>
           assert (Hs : exists l,
                      find_layer lid s = Some l /\
                      processorPendingBatchId (controlAdapter l) = None)
             by (unfold controlLayersReducer;
                 rewrite !find_layer_update, Hf; cbn; eexists;
                 split; reflexivity);
           destruct Hs as [[lidx [i3 c3 p3 pe3]] [Hs Hpe]];
           cbn in Hpe; subst pe3
       end.
  all: settle w''.
  all: split;
    [first [ exact (pending_recorded lid _ _ Hf)
           | exact (pending_recorded lid _ _ Hl') ]|].
  all: split; [reflexivity|].
  all: split;
    [unfold pendingBatchId_of; cbn [store]; rewrite Hs; reflexivity|].
  all: reflexivity.
Qed.

End Beyond.

(** ** Beyond the claims, on the sample data *)

Lemma catch_clause_not_aborted_witness :
  let N := middleware Sample.table in
  run_sync N 0 (on_error "L1" (FetchBaseQueryError 403)) (boot [])
  = (Returned tt,
     snd (exec_sync N 0 (OpDispatch (caLayerImageChanged "L1" None))
            (snd (exec_sync N 0 (OpLog Error "queue.graphFailedToQueue")
                            (boot []))))).
Proof.
  exact (@catch_clause_not_aborted (middleware Sample.table) 0%nat (boot [])
           "L1" (FetchBaseQueryError 403) eq_refl).
Defined.

Lemma abort_during_fetch_still_records_witness :
  let s := [ControlAdapterLayer Sample.L1] in
  let done := Sample.completion (ImageOutput "out.png" 512 512) in
  let w :=
    loop Sample.table
      [Fire Sample.edit; SetStore s; Advance 300; SetStore s;
       Respond 0 (EnqueueBatchOk {| batch_id := Some "B1" |}); SetStore s;
       Fire done; SetStore s] (boot s) in
  let v := loop Sample.table [Fire Sample.edit; SetStore s] w in
  is_aborted 0 v = true /\
  nth_error
    (phases (loop Sample.table [Respond 0 (ImageDTOResult (Some Sample.out))]
                  v)) 0
  = Some Finished.
Proof.
  intros s done w v.
  assert (H : DEBOUNCE_MS <= 300) by (unfold DEBOUNCE_MS; lia).
  pose proof
    (@abort_during_fetch_still_records Sample.table Sample.edit Sample.edit
       "L1" "L1" s s s s s s 300 Sample.L1 Sample.N1
       {| batch_id := Some "B1" |}
       {| queue_batch_id := "B1"; source_node_id := "N1";
          result := ImageOutput "out.png" 512 512 |}
       "out.png" 512 512 Sample.out
       eq_refl eq_refl H eq_refl eq_refl eq_refl eq_refl eq_refl) as C.
  exact (conj (proj1 (proj2 C)) (proj1 (proj2 (proj2 (proj2 (proj2 C)))))).
Defined.

Lemma completion_wait_is_unbounded_witness :
  let s := [ControlAdapterLayer Sample.L1] in
  let w :=
    loop Sample.table
      [Fire Sample.edit; SetStore s; Advance 300; SetStore s;
       Respond 0 (EnqueueBatchOk {| batch_id := Some "B1" |})] (boot s) in
  let foreign :=
    socketInvocationComplete
      {| queue_batch_id := "B9"; source_node_id := "N1";
         result := ImageOutput "out.png" 512 512 |} in
  loop Sample.table [Fire foreign] w = w /\
  loop Sample.table [Advance 86400000] w = tick 86400000 w.
Proof.
  intros s w foreign.
  assert (H : DEBOUNCE_MS <= 300) by (unfold DEBOUNCE_MS; lia).
  exact (proj2
    (@completion_wait_is_unbounded Sample.table Sample.edit "L1" s s s 300
       Sample.L1 Sample.N1 {| batch_id := Some "B1" |} foreign 86400000
       eq_refl H eq_refl eq_refl eq_refl eq_refl eq_refl)).
Defined.

Lemma late_cancel_answer_clears_new_batch_witness :
  let s :=
    [ControlAdapterLayer
       (Sample.layer (Some Sample.I1) (Some Sample.config) (Some "B0"))] in
  let w :=
    loop Sample.table
      [Fire Sample.edit; SetStore s; Advance 300;
       Respond 0 (EnqueueBatchOk {| batch_id := Some "B1" |})] (boot s) in
  pendingBatchId_of "L1" (store w) = Some (Some "B1") /\
  pendingBatchId_of "L1"
    (store (loop Sample.table [Respond 1 (cancel_answer None)] w))
  = Some None.
Proof.
  intros s w.
  assert (H : DEBOUNCE_MS <= 300) by (unfold DEBOUNCE_MS; lia).
  pose proof
    (@late_cancel_answer_clears_new_batch Sample.table Sample.edit
       Sample.edit "L1" "L1" s s 300
       (Sample.layer (Some Sample.I1) (Some Sample.config) (Some "B0"))
       Sample.N1 "B0" {| batch_id := Some "B1" |} None
       eq_refl eq_refl H eq_refl eq_refl eq_refl eq_refl eq_refl) as C.
  exact (conj (proj1 C) (proj1 (proj2 (proj2 C)))).
Defined.

Lemma build_failure_is_not_caught_witness :
  let s :=
    [ControlAdapterLayer (Sample.layer (Some Sample.I1) None None)] in
  let w := loop Sample.table [Fire Sample.edit; SetStore s; Advance 300]
                (boot s) in
  option_map status (nth_error (threads w) 0) = Some (Failed TypeError) /\
  existsb is_enqueue (events_of 0 w) = false.
Proof.
  intros s w.
  assert (H : DEBOUNCE_MS <= 300) by (unfold DEBOUNCE_MS; lia).
  pose proof
    (@build_failure_is_not_caught Sample.table Sample.edit "L1" s s 300
       (Sample.layer (Some Sample.I1) None None) TypeError
       eq_refl H eq_refl eq_refl) as C.
  exact (conj (proj1 C) (proj1 (proj2 (proj2 (proj2 C))))).
Defined.

Lemma missing_image_still_submits_witness :
  let s :=
    [ControlAdapterLayer (Sample.layer None (Some Sample.config) None)] in
  let w := loop Sample.table [Fire Sample.edit; SetStore s; Advance 300]
                (boot s) in
  exists req, nth_error (phases w) 0 = Some (Submitting req).
Proof.
  intros s w.
  assert (H : DEBOUNCE_MS <= 300) by (unfold DEBOUNCE_MS; lia).
  exact (proj1
    (@missing_image_still_submits Sample.table Sample.edit "L1" s s 300
       (Sample.layer None (Some Sample.config) None) Sample.config
       {| node_id := "N1"; node_type := "canny_image_processor";
          node_image := None; is_intermediate := false |}
       eq_refl H eq_refl eq_refl eq_refl eq_refl)).
Defined.

(** ** The appInfo endpoints: paths and methods *)

(** The queries are sent with GET and the mutations with another method; no
    two endpoints share a name, or a path and a method; and every tag a
    mutation invalidates is provided by a query. *)
Theorem appInfo_table_is_consistent :
  forallb (fun e => implb (AppInfo.is_query e)
                          (String.eqb (AppInfo.method e) "GET"))
          AppInfo.appInfoApi = true /\
  forallb (fun e => implb (AppInfo.is_mutation e)
                          (negb (String.eqb (AppInfo.method e) "GET")))
          AppInfo.appInfoApi = true /\
  NoDup (map AppInfo.name AppInfo.appInfoApi) /\
  NoDup (map (fun e => (AppInfo.url e, AppInfo.method e))
             AppInfo.appInfoApi) /\
  forallb
    (fun e =>
       forallb
         (fun tg =>
            existsb (fun q => AppInfo.is_query q
                              && AppInfo.has_tag tg (AppInfo.providesTags q))
                    AppInfo.appInfoApi)
         (AppInfo.invalidatesTags e))
    AppInfo.appInfoApi = true.
Proof.
  split; [reflexivity|]. split; [reflexivity|].
  split; [|split; [|reflexivity]].
  - cbn. repeat constructor; cbn; intuition discriminate.
  - cbn. repeat constructor; cbn; intuition discriminate.
Qed.
